(** * The virtual Prisma client and the query parser of the playground

    A shallow embedding of
    - [virtual-prisma-client.ts] (the SQL builders [buildSelectQuery],
      [buildInsertQuery], [buildUpdateQuery], [buildDeleteQuery] and the
      methods of [createVirtualModel]), and
    - [pages/api/query.ts] (the search for the active binding and the
      evaluation of the payload text in [parseUserQuery], and the request
      [handler] with the creation of the client it calls),
    with the properties of the written specification checked against them,
    followed by further properties of the same functions.

    Conventions of the embedding.
    - JavaScript strings are [string]s of ASCII characters; case mapping and
      white space are the ASCII ones.
    - JavaScript numbers are the integers [VNum z] (printed in decimal, which
      is what [String] does below 10^21) and [VNaN].
    - A plain object is the list of its own enumerable properties in the
      order [Object.keys] yields them, keys pairwise distinct.
    - An exception is a value of [exn] carried by [Throw]. *)

From Stdlib Require Import String Ascii List ZArith Lia Bool Arith.
From Stdlib Require Import Decimal DecimalString DecimalNat.
Import ListNotations.

#[local] Open Scope list_scope.
#[local] Open Scope string_scope.
Set Warnings "-register-all".

(* ================================================================== *)
(** ** Strings as the JavaScript runtime handles them *)

Module Str.

(** White space and line terminators removed by [String.prototype.trim]
    and matched by the class [\s]. *)
Definition is_space (c : ascii) : bool :=
  match nat_of_ascii c with
  | 9 | 10 | 11 | 12 | 13 | 32 => true
  | _ => false
  end.

(** Line terminators: [.] does not match them and [$] (flag [m]) matches
    in front of them. *)
Definition is_line_terminator (c : ascii) : bool :=
  match nat_of_ascii c with
  | 10 | 13 => true
  | _ => false
  end.

(** The class [\w]. *)
Definition is_word (c : ascii) : bool :=
  let n := nat_of_ascii c in
  (((48 <=? n) && (n <=? 57)) || ((65 <=? n) && (n <=? 90))
   || ((97 <=? n) && (n <=? 122)) || (n =? 95))%nat.

Definition is_digit (c : ascii) : bool :=
  let n := nat_of_ascii c in ((48 <=? n) && (n <=? 57))%nat.

Fixpoint trimStart (s : string) : string :=
  match s with
  | String c s' => if is_space c then trimStart s' else s
  | EmptyString => EmptyString
  end.

Fixpoint trimEnd (s : string) : string :=
  match s with
  | String c s' =>
      match trimEnd s' with
      | EmptyString => if is_space c then EmptyString else String c EmptyString
      | r => String c r
      end
  | EmptyString => EmptyString
  end.

Definition trim (s : string) : string := trimEnd (trimStart s).

Definition startsWith (s p : string) : bool := String.prefix p s.

Fixpoint includes (s p : string) : bool :=
  String.prefix p s ||
  match s with
  | String _ s' => includes s' p
  | EmptyString => false
  end.

Definition endsWith (s p : string) : bool :=
  let n := String.length s in
  let k := String.length p in
  (k <=? n)%nat && String.eqb (String.substring (n - k) k s) p.

(** [s.split('\n')]: never empty, a trailing newline yields a last empty
    line. *)
Fixpoint split_lines (s : string) : list string :=
  match s with
  | EmptyString => [EmptyString]
  | String c s' =>
      if Ascii.eqb c "010" then EmptyString :: split_lines s'
      else match split_lines s' with
           | l :: ls => String c l :: ls
           | [] => [String c EmptyString]
           end
  end.

Definition join (sep : string) (ls : list string) : string :=
  String.concat sep ls.

Definition upper (c : ascii) : ascii :=
  let n := nat_of_ascii c in
  if ((97 <=? n) && (n <=? 122))%nat then ascii_of_nat (n - 32) else c.

Fixpoint toUpperCase (s : string) : string :=
  match s with
  | String c s' => String (upper c) (toUpperCase s')
  | EmptyString => EmptyString
  end.

Fixpoint drop (n : nat) (s : string) : string :=
  match n, s with
  | S n', String _ s' => drop n' s'
  | _, _ => s
  end.

(** The longest prefix of word characters, and what follows it. *)
Fixpoint span_word (s : string) : string * string :=
  match s with
  | String c s' =>
      if is_word c then let (w, r) := span_word s' in (String c w, r)
      else (EmptyString, s)
  | EmptyString => (EmptyString, EmptyString)
  end.

(** [s.replace(pat, rep)] with a string pattern: the first occurrence
    only. *)
Fixpoint replace_first (pat rep s : string) : string :=
  if String.prefix pat s then rep ++ drop (String.length pat) s
  else match s with
       | String c s' => String c (replace_first pat rep s')
       | EmptyString => EmptyString
       end.

Definition of_nat (n : nat) : string :=
  NilEmpty.string_of_uint (Nat.to_uint n).

Definition of_Z (z : Z) : string :=
  NilEmpty.string_of_int (Z.to_int z).

(** Number of occurrences of a character. *)
Fixpoint count_char (a : ascii) (s : string) : nat :=
  match s with
  | String c s' => (if Ascii.eqb c a then 1 else 0) + count_char a s'
  | EmptyString => 0
  end.


Definition all_space (s : string) : bool :=
  match trimStart s with EmptyString => true | _ => false end.

End Str.

(* ================================================================== *)
(** ** JavaScript values, exceptions and plain objects *)

Module Js.

Inductive value : Type :=
| VUndefined
| VNull
| VBool (b : bool)
| VNum (z : Z)
| VNaN
| VStr (s : string)
| VDate (ms : Z)                       (* a [Date], by its time value *)
| VFun (name : string)                 (* a built-in function object *)
| VArr (xs : list value)
| VObj (props : list (string * value)).

Definition props := list (string * value).

Inductive exn : Type :=
| Error (message : string)             (* [new Error(message)] *)
| TypeError                            (* raised by the runtime *)
| SyntaxError
| ReferenceError
| DatabaseError (message : string).    (* a rejected [client.query] *)

Inductive result (A : Type) : Type :=
| Ok (a : A)
| Throw (e : exn).
Arguments Ok {A} a.
Arguments Throw {A} e.

Definition bind {A B} (r : result A) (k : A -> result B) : result B :=
  match r with
  | Ok a => k a
  | Throw e => Throw e
  end.

(** How the host prints a [Date] (it depends on its time zone). *)
Class Host := { date_toString : Z -> string }.

Definition truthy (v : value) : bool :=
  match v with
  | VUndefined | VNull | VNaN => false
  | VBool b => b
  | VNum z => negb (Z.eqb z 0)
  | VStr s => negb (String.eqb s "")
  | VDate _ | VFun _ | VArr _ | VObj _ => true
  end.

Definition nullish (v : value) : bool :=
  match v with
  | VUndefined | VNull => true
  | _ => false
  end.

(** [a || b] *)
Definition or (a b : value) : value := if truthy a then a else b.

(** [String(v)], which is also what a template literal applies. *)
Fixpoint String_ {host : Host} (v : value) : string :=
  match v with
  | VUndefined => "undefined"
  | VNull => "null"
  | VBool true => "true"
  | VBool false => "false"
  | VNum z => Str.of_Z z
  | VNaN => "NaN"
  | VStr s => s
  | VDate ms => date_toString ms
  | VFun name => "function " ++ name ++ "() { [native code] }"
  | VArr xs =>
      Str.join ","
        (map (fun x => match x with
                       | VUndefined | VNull => ""
                       | _ => String_ x
                       end) xs)
  | VObj _ => "[object Object]"
  end.

Fixpoint assoc {A} (k : string) (l : list (string * A)) : option A :=
  match l with
  | (k', v) :: l' => if String.eqb k' k then Some v else assoc k l'
  | [] => None
  end.

(** What every plain object inherits from [Object.prototype]. *)
Definition Object_prototype : props :=
  [ ("constructor", VFun "Object");
    ("__defineGetter__", VFun "__defineGetter__");
    ("__defineSetter__", VFun "__defineSetter__");
    ("hasOwnProperty", VFun "hasOwnProperty");
    ("__lookupGetter__", VFun "__lookupGetter__");
    ("__lookupSetter__", VFun "__lookupSetter__");
    ("isPrototypeOf", VFun "isPrototypeOf");
    ("propertyIsEnumerable", VFun "propertyIsEnumerable");
    ("toString", VFun "toString");
    ("valueOf", VFun "valueOf");
    ("__proto__", VObj []);
    ("toLocaleString", VFun "toLocaleString") ].

Definition inherited (k : string) : bool :=
  match assoc k Object_prototype with Some _ => true | None => false end.

(** [o[k]] on a plain object given by its own properties: own first, then
    the prototype, else [undefined]. *)
Definition lookup (o : props) (k : string) : value :=
  match assoc k o with
  | Some v => v
  | None =>
      match assoc k Object_prototype with
      | Some v => v
      | None => VUndefined
      end
  end.

(** [k in o] *)
Definition has_property (o : props) (k : string) : bool :=
  match assoc k o with
  | Some _ => true
  | None => inherited k
  end.

(** [v.k] for the property names the client reads ([where], [orderBy],
    [take], [skip], [data], ...): a [TypeError] on [null] and [undefined],
    [undefined] on the primitives, arrays and dates, which have no such
    property. *)
Definition get (v : value) (k : string) : result value :=
  match v with
  | VUndefined | VNull => Throw TypeError
  | VObj o => Ok (lookup o k)
  | _ => Ok VUndefined
  end.

(** [o.k = v]: in place when [k] is there, appended otherwise. *)
Fixpoint set (o : props) (k : string) (v : value) : props :=
  match o with
  | (k', v') :: o' =>
      if String.eqb k' k then (k', v) :: o' else (k', v') :: set o' k v
  | [] => [(k, v)]
  end.

Fixpoint indexed (i : nat) (xs : list value) : props :=
  match xs with
  | x :: xs' => (Str.of_nat i, x) :: indexed (S i) xs'
  | [] => []
  end.

Fixpoint chars (s : string) : list value :=
  match s with
  | String c s' => VStr (String c EmptyString) :: chars s'
  | EmptyString => []
  end.

(** The own enumerable properties, as the spread [{...v}] copies them. *)
Definition spread (v : value) : props :=
  match v with
  | VObj o => o
  | VArr xs => indexed 0 xs
  | VStr s => indexed 0 (chars s)
  | _ => []
  end.

Definition Object_entries (v : value) : result props :=
  if nullish v then Throw TypeError else Ok (spread v).

Definition Object_keys (o : props) : list string := map fst o.

(** A parameter with the default [{}]. *)
Definition default_empty (v : value) : value :=
  match v with
  | VUndefined => VObj []
  | _ => v
  end.

Fixpoint digits (acc : option Z) (s : string) : option Z :=
  match s with
  | String c s' =>
      if Str.is_digit c
      then digits
             (Some (10 * match acc with Some a => a | None => 0 end
                    + Z.of_nat (nat_of_ascii c - 48))%Z) s'
      else acc
  | EmptyString => acc
  end.

(** [parseInt(v)]: leading white space, a sign, then decimal digits. *)
Definition parseInt {host : Host} (v : value) : value :=
  match Str.trimStart (String_ v) with
  | String "-" s =>
      match digits None s with Some z => VNum (- z)%Z | None => VNaN end
  | String "+" s =>
      match digits None s with Some z => VNum z | None => VNaN end
  | s => match digits None s with Some z => VNum z | None => VNaN end
  end.

End Js.

Notation "x <- e ;; k" := (Js.bind e (fun x => k))
  (at level 61, e at next level, right associativity).

(* ================================================================== *)
(** ** The schema mapping *)

Module Schema.

Record Relation := mkRelation {
  type : string;
  model : string;
  foreignKey : string
}.

Record ModelDescriptor := mkModel {
  table : string;
  fields : list (string * string);      (* logical name, column *)
  relations : list (string * Relation)
}.

Definition same (names : list string) : list (string * string) :=
  map (fun n => (n, n)) names.

(** [SCHEMA_MAPPING] *)
Definition SCHEMA_MAPPING : list (string * ModelDescriptor) :=
  [ ("user",
     mkModel "users"
       (same ["id"; "email"; "name"; "bio"; "createdAt"; "updatedAt"])
       [ ("profile", mkRelation "one" "profile" "userId");
         ("posts", mkRelation "many" "post" "authorId");
         ("comments", mkRelation "many" "comment" "authorId") ]);
    ("profile",
     mkModel "profiles"
       (same ["id"; "avatar"; "website"; "twitter"; "userId"])
       [ ("user", mkRelation "one" "user" "userId") ]);
    ("post",
     mkModel "posts"
       (same ["id"; "title"; "content"; "published"; "views"; "authorId";
              "categoryId"; "createdAt"; "updatedAt"])
       [ ("author", mkRelation "one" "user" "authorId");
         ("category", mkRelation "one" "category" "categoryId");
         ("postTags", mkRelation "many" "postTag" "postId");
         ("comments", mkRelation "many" "comment" "postId") ]);
    ("category",
     mkModel "categories"
       (same ["id"; "name"; "description"; "color"])
       [ ("posts", mkRelation "many" "post" "categoryId") ]);
    ("tag",
     mkModel "tags"
       (same ["id"; "name"])
       [ ("postTags", mkRelation "many" "postTag" "tagId") ]);
    ("postTag",
     mkModel "post_tags"
       (same ["postId"; "tagId"])
       [ ("post", mkRelation "one" "post" "postId");
         ("tag", mkRelation "one" "tag" "tagId") ]);
    ("comment",
     mkModel "comments"
       (same ["id"; "content"; "authorId"; "postId"; "parentId";
              "createdAt"])
       [ ("author", mkRelation "one" "user" "authorId");
         ("post", mkRelation "one" "post" "postId");
         ("parent", mkRelation "one" "comment" "parentId");
         ("replies", mkRelation "many" "comment" "parentId") ]) ].

(** The models a client is created for ([createVirtualModel] is applied to
    these seven names and to no other). *)
Definition model_of (modelName : string) : option ModelDescriptor :=
  Js.assoc modelName SCHEMA_MAPPING.

(** The object [schema.fields]. *)
Definition fields_object (schema : ModelDescriptor) : Js.props :=
  map (fun kc => (fst kc, Js.VStr (snd kc))) (fields schema).

(** [schema.fields[key]] *)
Definition field (schema : ModelDescriptor) (key : string) : Js.value :=
  Js.lookup (fields_object schema) key.

(** The columns of a model: the values of its field map. *)
Definition columns (schema : ModelDescriptor) : list string :=
  map snd (fields schema).

Definition is_field (schema : ModelDescriptor) (key : string) : bool :=
  match Js.assoc key (fields schema) with Some _ => true | None => false end.

End Schema.

(* ================================================================== *)
(** ** The SQL builders *)

Module Sql.
Import Js Schema.

Record CompiledQuery := mkQuery {
  query : string;
  values : list value
}.

Definition dq : string := String (ascii_of_nat 34) EmptyString.
Definition nl : string := String (ascii_of_nat 10) EmptyString.

(** An identifier between double quotes, as every template writes it. *)
Definition quoted (ident : string) : string := dq ++ ident ++ dq.

Definition model_not_found {A} (modelName : string) : result A :=
  Throw (Error ("Modelo " ++ modelName ++ " não encontrado")).

Section Builders.
Context {host : Host}.

(** [schema.fields[field] || field], as the template prints it. *)
Definition dbField_or (schema : ModelDescriptor) (field : string) : string :=
  String_ (or (Schema.field schema field) (VStr field)).

(** The callback of the [WHERE] block, mapped over the entries: one
    equality per entry, numbered from [valueIndex]. *)
Fixpoint whereConditions (schema : ModelDescriptor) (entries : props)
    (valueIndex : nat) : list string :=
  match entries with
  | (field, _) :: rest =>
      (quoted (dbField_or schema field) ++ " = $" ++ Str.of_nat valueIndex)
      :: whereConditions schema rest (S valueIndex)
  | [] => []
  end.

(** The callback of the [ORDER BY] block on one order spec. *)
Definition orderClause (schema : ModelDescriptor) (order : value)
    : result string :=
  entries <- Object_entries order ;;
  match entries with
  | (field, direction) :: _ =>
      Ok (quoted (dbField_or schema field) ++ " "
          ++ Str.toUpperCase (String_ direction))
  | [] => Throw TypeError
  end.

Fixpoint orderClauses (schema : ModelDescriptor) (orderFields : list value)
    : result (list string) :=
  match orderFields with
  | order :: rest =>
      c <- orderClause schema order ;;
      cs <- orderClauses schema rest ;;
      Ok (c :: cs)
  | [] => Ok []
  end.

Definition buildSelectQuery (modelName : string) (args0 : value)
    : result CompiledQuery :=
  let args := default_empty args0 in
  match model_of modelName with
  | None => model_not_found modelName
  | Some schema =>
      let query := "SELECT * FROM " ++ quoted (table schema) in
      where_ <- get args "where" ;;
      qv <- (if truthy where_ then
               entries <- Object_entries where_ ;;
               let conds := whereConditions schema entries 1 in
               Ok (match conds with
                   | [] => query
                   | _ => query ++ " WHERE " ++ Str.join " AND " conds
                   end, map snd entries)
             else Ok (query, [])) ;;
      orderBy <- get args "orderBy" ;;
      query <- (if truthy orderBy then
                  let orderFields :=
                    match orderBy with VArr xs => xs | _ => [orderBy] end in
                  cs <- orderClauses schema orderFields ;;
                  Ok (fst qv ++ " ORDER BY " ++ Str.join ", " cs)
                else Ok (fst qv)) ;;
      take <- get args "take" ;;
      let query :=
        if truthy take then query ++ " LIMIT " ++ String_ take else query in
      skip <- get args "skip" ;;
      let query :=
        if truthy skip then query ++ " OFFSET " ++ String_ skip else query in
      Ok (mkQuery query (snd qv))
  end.

(** [Object.keys(enhancedData).filter(key => schema.fields[key])] *)
Definition known_keys (schema : ModelDescriptor) (enhancedData : props)
    : list string :=
  filter (fun key => truthy (Schema.field schema key))
         (Object_keys enhancedData).

Fixpoint placeholders (i : nat) (n : nat) : list string :=
  match n with
  | S n' => ("$" ++ Str.of_nat (S i)) :: placeholders (S i) n'
  | O => []
  end.

(** [createdNow] and [updatedNow] are the two readings of the clock
    ([new Date()]). *)
Definition buildInsertQuery (createdNow updatedNow : Z)
    (modelName : string) (data : value) : result CompiledQuery :=
  match model_of modelName with
  | None => model_not_found modelName
  | Some schema =>
      let enhancedData := spread data in
      let enhancedData :=
        if has_property (fields_object schema) "createdAt"
           && negb (truthy (lookup enhancedData "createdAt"))
        then set enhancedData "createdAt" (VDate createdNow)
        else enhancedData in
      let enhancedData :=
        if has_property (fields_object schema) "updatedAt"
           && negb (truthy (lookup enhancedData "updatedAt"))
        then set enhancedData "updatedAt" (VDate updatedNow)
        else enhancedData in
      let fields := known_keys schema enhancedData in
      let dbFields :=
        map (fun field => quoted (String_ (Schema.field schema field)))
            fields in
      let placeholders := placeholders 0 (length fields) in
      let values := map (fun field => lookup enhancedData field) fields in
      Ok (mkQuery
            (nl ++ "      INSERT INTO " ++ quoted (table schema)
             ++ " (" ++ Str.join ", " dbFields ++ ")" ++ nl
             ++ "      VALUES (" ++ Str.join ", " placeholders ++ ")" ++ nl
             ++ "      RETURNING *" ++ nl ++ "    ")
            values)
  end.

(** The callback of [setClauses], mapped with its index. *)
Fixpoint setClauses (schema : ModelDescriptor) (setFields : list string)
    (i : nat) : list string :=
  match setFields with
  | field :: rest =>
      (quoted (String_ (Schema.field schema field)) ++ " = $"
       ++ Str.of_nat (i + 1))
      :: setClauses schema rest (S i)
  | [] => []
  end.

(** [{ ...args.data }] with the automatic [updatedAt]. *)
Definition enhancedUpdateData (updatedNow : Z) (schema : ModelDescriptor)
    (data : value) : props :=
  let enhancedData := spread data in
  if has_property (fields_object schema) "updatedAt"
     && negb (truthy (lookup enhancedData "updatedAt"))
  then set enhancedData "updatedAt" (VDate updatedNow)
  else enhancedData.

Definition buildUpdateQuery (updatedNow : Z) (modelName : string)
    (args : value) : result CompiledQuery :=
  match model_of modelName with
  | None => model_not_found modelName
  | Some schema =>
      data <- get args "data" ;;
      let enhancedData := enhancedUpdateData updatedNow schema data in
      let setFields := known_keys schema enhancedData in
      let setValues := map (fun field => lookup enhancedData field) setFields in
      let query :=
        "UPDATE " ++ quoted (table schema) ++ " SET "
        ++ Str.join ", " (setClauses schema setFields 0) in
      let valueIndex := length setValues + 1 in
      where_ <- get args "where" ;;
      qv <- (if truthy where_ then
               entries <- Object_entries where_ ;;
               Ok (query ++ " WHERE "
                   ++ Str.join " AND "
                        (whereConditions schema entries valueIndex),
                   (setValues ++ map snd entries)%list)
             else Ok (query, setValues)) ;;
      Ok (mkQuery (fst qv ++ " RETURNING *") (snd qv))
  end.

Definition buildDeleteQuery (modelName : string) (args : value)
    : result CompiledQuery :=
  match model_of modelName with
  | None => model_not_found modelName
  | Some schema =>
      let query := "DELETE FROM " ++ quoted (table schema) in
      where_ <- get args "where" ;;
      if truthy where_ then
        entries <- Object_entries where_ ;;
        Ok (mkQuery
              (query ++ " WHERE "
               ++ Str.join " AND " (whereConditions schema entries 1))
              (map snd entries))
      else Ok (mkQuery query [])
  end.

(** The query built inside [count]; there the schema is read without the
    guard of the builders, so an unknown model fails on [schema.table]. *)
Definition buildCountQuery (modelName : string) (args : value)
    : result CompiledQuery :=
  match model_of modelName with
  | None => Throw TypeError
  | Some schema =>
      let query := "SELECT COUNT(*) as count FROM " ++ quoted (table schema) in
      where_ <- get args "where" ;;
      if truthy where_ then
        entries <- Object_entries where_ ;;
        Ok (mkQuery
              (query ++ " WHERE "
               ++ Str.join " AND " (whereConditions schema entries 1))
              (map snd entries))
      else Ok (mkQuery query [])
  end.

End Builders.
End Sql.

(* ================================================================== *)
(** ** The methods of a virtual model *)

Module Client.
Import Js Schema Sql.

(** A row as [pg] returns it: an object, column by column. *)
Definition row := props.

(** The answer of [client.query]: [rowCount] is [null] for some
    commands. *)
Record QueryResult := mkResult {
  rows : list row;
  rowCount : option nat
}.

(** The connection of the session: an engine that answers one statement
    at a time, or rejects it. *)
Class Database := {
  conn : Type;
  run : conn -> string -> list value -> conn * result QueryResult
}.

Section Methods.
Context {host : Host} {db : Database}.

(** The connection, and every statement sent over it so far, oldest
    first. *)
Record world := mkWorld {
  connection : conn;
  issued : list CompiledQuery
}.

Definition M (A : Type) : Type := world -> world * result A.

Definition ret {A} (a : A) : M A := fun w => (w, Ok a).
Definition throw {A} (e : exn) : M A := fun w => (w, Throw e).
Definition lift {A} (r : result A) : M A := fun w => (w, r).

Definition mbind {A B} (m : M A) (k : A -> M B) : M B :=
  fun w =>
    match m w with
    | (w', Ok a) => k a w'
    | (w', Throw e) => (w', Throw e)
    end.

(** [await client.query(query, values)] *)
Definition client_query (sql : string) (params : list value)
    : M QueryResult :=
  fun w =>
    let (c, r) := run (connection w) sql params in
    (mkWorld c (issued w ++ [mkQuery sql params]), r).

#[local] Notation "x <~ e ;; k" := (mbind e (fun x => k))
  (at level 61, e at next level, right associativity).

Variable modelName : string.

(** [{ ...args, take: 1 }] *)
Definition with_take_1 (args : value) : value :=
  VObj (set (spread args) "take" (VNum 1)).

(** [result.rows[0] || null] *)
Definition first_or_null (r : QueryResult) : value :=
  match rows r with
  | r0 :: _ => VObj r0
  | [] => VNull
  end.

(** [{ count: result.rowCount || 0 }] *)
Definition count_of (r : QueryResult) : value :=
  VObj [("count", VNum (Z.of_nat (match rowCount r with
                                  | Some n => n
                                  | None => 0
                                  end)))].

Definition findMany (args0 : value) : M value :=
  let args := default_empty args0 in
  q <~ lift (buildSelectQuery modelName args) ;;
  result <~ client_query (query q) (values q) ;;
  ret (VArr (map VObj (rows result))).

Definition findUnique (args : value) : M value :=
  q <~ lift (buildSelectQuery modelName (with_take_1 args)) ;;
  result <~ client_query (query q) (values q) ;;
  ret (first_or_null result).

Definition findFirst (args0 : value) : M value :=
  let args := default_empty args0 in
  q <~ lift (buildSelectQuery modelName (with_take_1 args)) ;;
  result <~ client_query (query q) (values q) ;;
  ret (first_or_null result).

(** [result.rows[0]] *)
Definition first_row (r : QueryResult) : value :=
  match rows r with
  | r0 :: _ => VObj r0
  | [] => VUndefined
  end.

Definition create (createdNow updatedNow : Z) (args : value) : M value :=
  data <~ lift (get args "data") ;;
  q <~ lift (buildInsertQuery createdNow updatedNow modelName data) ;;
  result <~ client_query (query q) (values q) ;;
  ret (first_row result).

(** [for (const data of ...)]: arrays and strings can be iterated, the
    other values of the embedding cannot. *)
Definition iterate (v : value) : result (list value) :=
  match v with
  | VArr xs => Ok xs
  | VStr s => Ok (chars s)
  | _ => Throw TypeError
  end.

(** The loop of [createMany]; [times i] holds the readings of the clock
    for the record of index [i]. *)
Fixpoint createMany_loop (times : nat -> Z * Z) (records : list value)
    (count : nat) : M value :=
  match records with
  | data :: rest =>
      q <~ lift (buildInsertQuery (fst (times count)) (snd (times count))
                   modelName data) ;;
      _ <~ client_query (query q) (values q) ;;
      createMany_loop times rest (S count)
  | [] => ret (VObj [("count", VNum (Z.of_nat count))])
  end.

Definition createMany (times : nat -> Z * Z) (args : value) : M value :=
  data <~ lift (get args "data") ;;
  records <~ lift (iterate data) ;;
  createMany_loop times records 0.

Definition update (updatedNow : Z) (args : value) : M value :=
  q <~ lift (buildUpdateQuery updatedNow modelName args) ;;
  result <~ client_query (query q) (values q) ;;
  match rows result with
  | [] => throw (Error "Registro não encontrado para atualização")
  | r0 :: _ => ret (VObj r0)
  end.

Definition updateMany (updatedNow : Z) (args : value) : M value :=
  q <~ lift (buildUpdateQuery updatedNow modelName args) ;;
  result <~ client_query
              (Str.replace_first " RETURNING *" "" (query q)) (values q) ;;
  ret (count_of result).

(** [{ ...a, ...b }] *)
Definition merge (a b : value) : props :=
  fold_left (fun o kv => set o (fst kv) (snd kv)) (spread b) (spread a).

Definition upsert (createdNow updatedNow : Z) (args : value) : M value :=
  where_ <~ lift (get args "where") ;;
  existing <~ findUnique (VObj [("where", where_)]) ;;
  if truthy existing then
    data <~ lift (get args "update") ;;
    update updatedNow (VObj [("where", where_); ("data", data)])
  else
    created <~ lift (get args "create") ;;
    create createdNow updatedNow
      (VObj [("data", VObj (merge where_ created))]).

Definition delete (args : value) : M value :=
  where_ <~ lift (get args "where") ;;
  existing <~ findUnique (VObj [("where", where_)]) ;;
  if negb (truthy existing) then
    throw (Error "Registro não encontrado para exclusão")
  else
    q <~ lift (buildDeleteQuery modelName args) ;;
    _ <~ client_query (query q) (values q) ;;
    ret existing.

Definition deleteMany (args0 : value) : M value :=
  let args := default_empty args0 in
  q <~ lift (buildDeleteQuery modelName args) ;;
  result <~ client_query (query q) (values q) ;;
  ret (count_of result).

Definition count (args0 : value) : M value :=
  let args := default_empty args0 in
  q <~ lift (buildCountQuery modelName args) ;;
  result <~ client_query (query q) (values q) ;;
  match rows result with
  | r0 :: _ => ret (parseInt (lookup r0 "count"))
  | [] => throw TypeError
  end.

Definition aggregate (args0 : value) : M value :=
  let args := default_empty args0 in
  where_ <~ lift (get args "where") ;;
  count_ <~ count (if truthy where_ then VObj [("where", where_)]
                   else VObj []) ;;
  ret (VObj [("_count", VObj [("_all", count_)])]).

Definition groupBy (args : value) : M value :=
  where_ <~ lift (get args "where") ;;
  findMany (if truthy where_ then VObj [("where", where_)] else VObj []).

End Methods.
End Client.

(* ================================================================== *)
(** ** [parseUserQuery] *)

Module Parser.
Import Js.

(** *** The regular expressions, each as its matcher at one position

    Every repetition below is followed by a character outside its class,
    so the greedy match is the only one and no backtracking is involved.
    A matcher returns its captures and the length of the match. *)

Definition span_space (s : string) : nat :=
  String.length s - String.length (Str.trimStart s).

(** Leftmost match: the position and what the matcher returns there. *)
Fixpoint search {A} (m : string -> option A) (i : nat) (s : string)
    : option (nat * A) :=
  match m s with
  | Some a => Some (i, a)
  | None =>
      match s with
      | String _ s' => search m (S i) s'
      | EmptyString => None
      end
  end.

(** [/console\.log\((\w+)\)/] *)
Definition re_console_log (s : string) : option string :=
  if String.prefix "console.log(" s then
    let (w, rest) := Str.span_word (Str.drop 12 s) in
    if String.eqb w "" then None
    else if String.prefix ")" rest then Some w else None
  else None.

(** [/const\s+(\w+)\s*=/] *)
Definition re_const (s : string) : option string :=
  if String.prefix "const" s then
    let s1 := Str.drop 5 s in
    if (span_space s1 =? 0)%nat then None
    else
      let (w, rest) := Str.span_word (Str.trimStart s1) in
      if String.eqb w "" then None
      else if String.prefix "=" (Str.trimStart rest) then Some w else None
  else None.

(** [new RegExp(`const\\s+${currentVarName}\\s*=\\s*await\\s+prisma`)],
    for a name made of word characters. *)
Definition re_start (currentVarName : string) (s : string) : option unit :=
  if String.prefix "const" s then
    let s1 := Str.drop 5 s in
    if (span_space s1 =? 0)%nat then None
    else
      let s2 := Str.trimStart s1 in
      if String.prefix currentVarName s2 then
        let s3 := Str.trimStart (Str.drop (String.length currentVarName) s2) in
        if String.prefix "=" s3 then
          let s4 := Str.trimStart (Str.drop 1 s3) in
          if String.prefix "await" s4 then
            let s5 := Str.drop 5 s4 in
            if (span_space s5 =? 0)%nat then None
            else if String.prefix "prisma" (Str.trimStart s5) then Some tt
                 else None
          else None
        else None
      else None
  else None.

(** [/await\s+prisma\.(\w+)\.(\w+)\s*\(/]: the two captures and the length
    of the match. *)
Definition re_method (s : string) : option (string * string * nat) :=
  if String.prefix "await" s then
    let s1 := Str.drop 5 s in
    let n1 := span_space s1 in
    if (n1 =? 0)%nat then None
    else
      let s2 := Str.trimStart s1 in
      if String.prefix "prisma." s2 then
        let (model, r1) := Str.span_word (Str.drop 7 s2) in
        if String.eqb model "" then None
        else if String.prefix "." r1 then
          let (action, r2) := Str.span_word (Str.drop 1 r1) in
          if String.eqb action "" then None
          else
            let n2 := span_space r2 in
            if String.prefix "(" (Str.trimStart r2) then
              Some (model, action,
                    5 + n1 + 7 + String.length model + 1
                    + String.length action + n2 + 1)
            else None
        else None
      else None
  else None.

Definition test {A} (m : string -> option A) (s : string) : bool :=
  match search m 0 s with Some _ => true | None => false end.

(** *** The active binding *)

(** The body of the first loop on one line: the variable of an
    uncommented [console.log(variable)]. *)
Definition console_log_of (line : string) : option string :=
  let trimmedLine := Str.trim line in
  if negb (Str.startsWith trimmedLine "//")
     && Str.includes trimmedLine "console.log("
     && Str.includes trimmedLine ")"
  then option_map snd (search re_console_log 0 trimmedLine)
  else None.

(** The first loop: it stops ([break]) at the first line that matches. *)
Fixpoint find_console_log (lines : list string) : string :=
  match lines with
  | line :: rest =>
      match console_log_of line with
      | Some currentVarName => currentVarName
      | None => find_console_log rest
      end
  | [] => ""
  end.

(** The body of the second loop on one line. *)
Definition const_of (line : string) : option string :=
  let trimmedLine := Str.trim line in
  if negb (Str.startsWith trimmedLine "//")
     && Str.includes trimmedLine "const "
     && Str.includes trimmedLine "await prisma"
  then option_map snd (search re_const 0 trimmedLine)
  else None.

Fixpoint find_const (lines : list string) : string :=
  match lines with
  | line :: rest =>
      match const_of line with
      | Some currentVarName => currentVarName
      | None => find_const rest
      end
  | [] => ""
  end.

Definition no_active_query : exn :=
  Error "Nenhuma query ativa encontrada. Descomente uma linha console.log(variavel) para executar uma query específica, ou certifique-se de ter pelo menos uma declaração const com await prisma.".

(** [currentVarName] after the two loops. *)
Definition active_binding (lines : list string) : result string :=
  let currentVarName := find_console_log lines in
  let currentVarName :=
    if String.eqb currentVarName "" then find_const lines
    else currentVarName in
  if String.eqb currentVarName "" then Throw no_active_query
  else Ok currentVarName.

(** *** The block of the active binding *)

Definition is_quote (c : ascii) : bool :=
  match nat_of_ascii c with
  | 34 | 39 | 96 => true
  | _ => false
  end.

Definition is_char (a : ascii) (c : ascii) : bool := Ascii.eqb c a.

Definition backslash : ascii := ascii_of_nat 92.

(** The state of the string detection: [inString] and [stringChar]
    ([None] for the empty [stringChar]). *)
Definition quote_step (prevChar : option ascii) (char : ascii)
    (st : bool * option ascii) : bool * option ascii :=
  let escaped := match prevChar with
                 | Some p => Ascii.eqb p backslash
                 | None => false
                 end in
  if is_quote char && negb escaped then
    if negb (fst st) then (true, Some char)
    else match snd st with
         | Some q => if Ascii.eqb char q then (false, None) else st
         | None => st
         end
  else st.

Record levels := mkLevels {
  braceLevel : Z;
  parenLevel : Z;
  inString : bool;
  stringChar : option ascii
}.

(** The inner loop over the characters of one line. *)
Fixpoint scan_line (line : string) (prevChar : option ascii) (st : levels)
    : levels :=
  match line with
  | String char rest =>
      let (ins, sc) := quote_step prevChar char (inString st, stringChar st) in
      let bl := braceLevel st in
      let pl := parenLevel st in
      let st' :=
        if negb ins then
          mkLevels
            (if is_char "{" char then bl + 1
             else if is_char "}" char then bl - 1 else bl)%Z
            (if is_char "(" char then pl + 1
             else if is_char ")" char then pl - 1 else pl)%Z
            ins sc
        else mkLevels bl pl ins sc in
      scan_line rest (Some char) st'
  | EmptyString => st
  end.

(** The loop over the lines, from the declaration of the binding to the
    line that closes it, or to the cap on the number of lines. *)
Fixpoint block_loop (currentVarName : string) (lines : list string)
    (foundStart : bool) (st : levels) (blockLines : list string)
    : list string :=
  match lines with
  | line :: rest =>
      let foundStart :=
        foundStart || test (re_start currentVarName) line in
      if foundStart then
        let blockLines := (blockLines ++ [line])%list in
        let st := scan_line line None st in
        let lineContent := Str.trim line in
        if (Z.eqb (braceLevel st) 0 && Z.leb (parenLevel st) 0)
           && (Str.endsWith lineContent ")"
               || Str.endsWith lineContent "})"
               || Str.endsWith lineContent "},")
        then blockLines
        else if (100 <? List.length blockLines)%nat then blockLines
        else block_loop currentVarName rest foundStart st blockLines
      else block_loop currentVarName rest foundStart st blockLines
  | [] => blockLines
  end.

Definition extract_block (currentVarName : string) (lines : list string)
    : list string :=
  block_loop currentVarName lines false (mkLevels 0 0 false None) [].

(** *** The payload text *)

(** The loop that looks for the parenthesis closing the call; [i] is the
    index of the first character of [s] in the block. *)
Fixpoint find_close (s : string) (i : nat) (prevChar : option ascii)
    (parenCounter : Z) (st : bool * option ascii) : option nat :=
  match s with
  | String char rest =>
      let st' := quote_step prevChar char st in
      if negb (fst st') then
        if is_char "(" char then
          find_close rest (S i) (Some char) (parenCounter + 1)%Z st'
        else if is_char ")" char then
          if Z.eqb (parenCounter - 1) 0 then Some i
          else find_close rest (S i) (Some char) (parenCounter - 1)%Z st'
        else find_close rest (S i) (Some char) parenCounter st'
      else find_close rest (S i) (Some char) parenCounter st'
  | EmptyString => None
  end.

(** [payloadStr]: the text between the parentheses of the call, trimmed;
    empty when the closing parenthesis is not found. The character in
    front of the opening parenthesis belongs to the match and is no
    backslash, so the loop starts with no previous character. *)
Definition payload_text (activeQueryBlock : string)
    (payloadStartIndex : nat) : string :=
  match find_close (Str.drop payloadStartIndex activeQueryBlock)
          payloadStartIndex None 0%Z (false, None) with
  | Some payloadEndIndex =>
      if (payloadStartIndex <? payloadEndIndex)%nat then
        Str.trim (String.substring (payloadStartIndex + 1)
                    (payloadEndIndex - (payloadStartIndex + 1))
                    activeQueryBlock)
      else ""
  | None => ""
  end.

(** *** The payload *)

(** [.replace(/,\s*$/, '')]: a comma followed by white space only, up to
    the end of the text. *)
Fixpoint strip_trailing_comma (s : string) : string :=
  match s with
  | String c s' =>
      if is_char "," c && Str.all_space s' then EmptyString
      else String c (strip_trailing_comma s')
  | EmptyString => EmptyString
  end.

(** [.replace(/\/\/.*$/gm, '')]: from two slashes to the end of the
    line. *)
Fixpoint strip_line_comments (inComment : bool) (s : string) : string :=
  match s with
  | String c s' =>
      if inComment then
        if Str.is_line_terminator c then String c (strip_line_comments false s')
        else strip_line_comments true s'
      else if String.prefix "//" s then strip_line_comments true s'
      else String c (strip_line_comments false s')
  | EmptyString => EmptyString
  end.

(** [.replace(/\/\*[\s\S]*?\*\//g, '')]: from the opening of a block
    comment to the first closing one after it; [skip] counts the
    characters of the comment still to drop. *)
Fixpoint strip_block_comments (skip : nat) (s : string) : string :=
  match s with
  | String c s' =>
      match skip with
      | S k => strip_block_comments k s'
      | O =>
          if String.prefix "/*" s then
            match String.index 0 "*/" (Str.drop 2 s) with
            | Some n => strip_block_comments (n + 3) s'
            | None => String c (strip_block_comments 0 s')
            end
          else String c (strip_block_comments 0 s')
      end
  | EmptyString => EmptyString
  end.

Definition cleanPayload (payloadStr : string) : string :=
  Str.trim
    (strip_block_comments 0
       (strip_line_comments false (strip_trailing_comma payloadStr))).

(** The payload used when the evaluation of the text throws. *)
Definition empty_payload : value := VObj [].

Definition basic_payload : value :=
  VObj [("data", VObj [("name", VStr "Teste");
                       ("email", VStr "teste@exemplo.com")])].

Definition fallback_payload (action : string) : value :=
  if String.eqb action "findMany" || String.eqb action "findFirst"
     || String.eqb action "count"
  then empty_payload
  else basic_payload.

Section Eval.
(** The direct [eval] of the host: given the bindings in scope at the
    call and the program text, a value or an exception. *)
Variable eval : props -> string -> result value.

(** "Processar o payload": [undefined] for a blank text, else what
    [eval] makes of the cleaned text between parentheses, else the
    fallback of the action. (The outer [try] of the source guards the
    cleaning, which raises nothing; its handler is never reached.) *)
Definition process_payload (scope : props) (action payloadStr : string)
    : value :=
  if negb (String.eqb payloadStr "")
     && negb (String.eqb (Str.trim payloadStr) "")
  then
    let cleanPayload := cleanPayload payloadStr in
    match eval (scope ++ [("cleanPayload", VStr cleanPayload)])%list
            ("(" ++ cleanPayload ++ ")") with
    | Ok evaluatedPayload => evaluatedPayload
    | Throw _ => fallback_payload action
    end
  else VUndefined.

Record ParsedQuery := mkParsed {
  model : string;
  action : string;
  payload : value
}.

Definition parseUserQuery (queryString : string) : result ParsedQuery :=
  let lines := Str.split_lines queryString in
  currentVarName <- active_binding lines ;;
  match extract_block currentVarName lines with
  | [] =>
      Throw (Error ("Query para a variável '" ++ currentVarName
                    ++ "' não encontrada"))
  | blockLines =>
      let activeQueryBlock := Str.join Sql.nl blockLines in
      match search re_method 0 activeQueryBlock with
      | None =>
          Throw (Error ("Não foi possível identificar o método Prisma em: "
                        ++ String.substring 0 200 activeQueryBlock
                        ++ "..."))
      | Some (methodStartIndex, (model, action, matched)) =>
          let payloadStartIndex := methodStartIndex + matched - 1 in
          let payloadStr := payload_text activeQueryBlock payloadStartIndex in
          let scope :=
            [ ("queryString", VStr queryString);
              ("lines", VArr (map VStr lines));
              ("currentVarName", VStr currentVarName);
              ("blockLines", VArr (map VStr blockLines));
              ("activeQueryBlock", VStr activeQueryBlock);
              ("model", VStr model);
              ("action", VStr action);
              ("payloadStr", VStr payloadStr);
              ("payload", VUndefined) ] in
          Ok (mkParsed model action
                (process_payload scope action payloadStr))
      end
  end.
End Eval.

(** [ALLOWED_ACTIONS] *)
Definition ALLOWED_ACTIONS : list string :=
  [ "findMany"; "findUnique"; "findFirst"; "create"; "createMany";
    "update"; "updateMany"; "upsert"; "delete"; "deleteMany";
    "count"; "aggregate"; "groupBy" ].

(** A host for the examples: direct [eval] on a parenthesised name. The
    name evaluates to its binding in scope, to its value for [true],
    [false], [null] and [undefined], and raises [ReferenceError] when it
    is bound nowhere. Other program texts are outside this fragment; they
    are rejected here and no example uses them. *)
Definition eval_name (scope : props) (code : string) : result value :=
  if String.prefix "(" code then
    let (name, rest) := Str.span_word (Str.drop 1 code) in
    if String.eqb rest ")" && negb (String.eqb name "")
       && negb (match name with
                | String c _ => Str.is_digit c
                | EmptyString => false
                end)
    then
      if String.eqb name "true" then Ok (VBool true)
      else if String.eqb name "false" then Ok (VBool false)
      else if String.eqb name "null" then Ok VNull
      else if String.eqb name "undefined" then Ok VUndefined
      else match assoc name scope with
           | Some v => Ok v
           | None => Throw ReferenceError
           end
    else Throw SyntaxError
  else Throw SyntaxError.

End Parser.

(* ================================================================== *)
(** ** Sample hosts and engines, for the examples *)

Module Samples.
Import Js Sql Client.

(** A host in UTC that prints every date as the epoch. *)
Definition utc : Host :=
  {| date_toString := fun _ =>
       "Thu Jan 01 1970 00:00:00 GMT+0000 (Coordinated Universal Time)" |}.

(** An engine over a single table held as a list of rows, which looks at
    the verb of a statement only (no filter, no limit): a [SELECT COUNT]
    answers the number of rows, any other [SELECT] answers the rows, a
    [DELETE] empties the table, and every statement but a [SELECT] reports
    all rows as affected. The connection state is the table. *)
Definition table_engine : Database :=
  {| conn := list row;
     run := fun (t : list row) (sql : string) (_ : list value) =>
       if String.prefix "SELECT COUNT" sql then
         (t, Ok (mkResult
                   [[("count", VStr (Str.of_nat (List.length t)))]]
                   (Some 1)))
       else if String.prefix "SELECT" sql then
         (t, Ok (mkResult t (Some (List.length t))))
       else if String.prefix "DELETE" sql then
         ([], Ok (mkResult [] (Some (List.length t))))
       else
         (t, Ok (mkResult [] (Some (List.length t)))) |}.

Definition alice : row := [("id", VNum 1); ("name", VStr "Alice")].
Definition bob : row := [("id", VNum 2); ("name", VStr "Bob")].

(** Two statements, each followed by its uncommented [console.log]. *)
Definition two_statements : string :=
  "const a = await prisma.user.findMany()" ++ Sql.nl
  ++ "console.log(a)" ++ Sql.nl
  ++ "const b = await prisma.post.count()" ++ Sql.nl
  ++ "console.log(b)".

End Samples.

(* ================================================================== *)
(** ** Notions used to state the properties *)

Module Notions.
Import Js Schema Sql Parser.

Section Clauses.
Context {host : Host}.

(** The [OFFSET] block of [buildSelectQuery]. *)
Definition offset_clause (skip : value) : string :=
  if truthy skip then " OFFSET " ++ String_ skip else "".

(** The [WHERE] block of [buildSelectQuery]: nothing for a falsy filter
    and for a filter without entries. *)
Definition select_where (schema : ModelDescriptor) (where_ : value) : string :=
  if truthy where_ then
    match whereConditions schema (spread where_) 1 with
    | [] => ""
    | conds => " WHERE " ++ Str.join " AND " conds
    end
  else "".

(** The [WHERE] block of the other builders, numbered from [valueIndex]. *)
Definition where_clause (schema : ModelDescriptor) (where_ : value)
    (valueIndex : nat) : string :=
  if truthy where_ then
    " WHERE " ++ Str.join " AND " (whereConditions schema (spread where_) valueIndex)
  else "".

Definition where_values (where_ : value) : list value :=
  if truthy where_ then map snd (spread where_) else [].
End Clauses.

(** The variables of the uncommented [console.log(variable)] calls of a
    text, one per line that has one, from top to bottom. *)
Fixpoint console_log_calls (lines : list string) : list string :=
  match lines with
  | line :: rest =>
      match console_log_of line with
      | Some v => v :: console_log_calls rest
      | None => console_log_calls rest
      end
  | [] => []
  end.


(** The characters with a role in the text of a statement: the dollar of a
    placeholder, the double quote of an identifier, the star of
    [RETURNING *] and the capital W of [WHERE]. *)
Definition special : list ascii :=
  [ascii_of_nat 36; ascii_of_nat 34; ascii_of_nat 42; ascii_of_nat 87].

(** A text without any of them. *)
Definition plain (s : string) : bool :=
  forallb (fun a => (Str.count_char a s =? 0)%nat) special.

Definition plain_schema (schema : ModelDescriptor) : bool :=
  plain (table schema)
  && forallb (fun col => plain col && negb (String.eqb col ""))
       (columns schema).

(** The number of positional placeholders of a text without dollar sign
    in its identifiers. *)
Definition placeholder_count (s : string) : nat :=
  Str.count_char (ascii_of_nat 36) s.

Section SetList.
Context {host : Host}.

(** The fields of the [SET] list of [buildUpdateQuery]: the keys of the
    data, with the automatic [updatedAt], that the field map resolves. *)
Definition set_fields (updatedNow : Z) (schema : ModelDescriptor)
    (data : value) : list string :=
  known_keys schema (enhancedUpdateData updatedNow schema data).

Definition set_values (updatedNow : Z) (schema : ModelDescriptor)
    (data : value) : list value :=
  map (fun field => lookup (enhancedUpdateData updatedNow schema data) field)
      (set_fields updatedNow schema data).

(** The statement of [buildUpdateQuery] up to its [SET] list. *)
Definition update_set (updatedNow : Z) (schema : ModelDescriptor)
    (data : value) : string :=
  "UPDATE " ++ quoted (table schema) ++ " SET "
  ++ Str.join ", " (setClauses schema (set_fields updatedNow schema data) 0).
End SetList.

(** The double quote. *)
Definition dquote : ascii := ascii_of_nat 34.

(** The identifiers of a statement: the texts between double quotes, from
    left to right. [inside] is the text read since the opening quote. *)
Fixpoint scan_identifiers (inside : option string) (s : string)
    : list string :=
  match s with
  | String c s' =>
      match inside with
      | None =>
          if Ascii.eqb c dquote then scan_identifiers (Some "") s'
          else scan_identifiers None s'
      | Some text =>
          if Ascii.eqb c dquote
          then text :: scan_identifiers None s'
          else scan_identifiers (Some (text ++ String c "")) s'
      end
  | EmptyString => []
  end.

Definition identifiers (s : string) : list string := scan_identifiers None s.


Section Columns.
Context {host : Host}.

(** [enhancedData] of [buildInsertQuery]: the record with the automatic
    timestamps. *)
Definition enhancedInsertData (createdNow updatedNow : Z)
    (schema : ModelDescriptor) (data : value) : props :=
  let enhancedData := spread data in
  let enhancedData :=
    if has_property (fields_object schema) "createdAt"
       && negb (truthy (lookup enhancedData "createdAt"))
    then set enhancedData "createdAt" (VDate createdNow)
    else enhancedData in
  if has_property (fields_object schema) "updatedAt"
     && negb (truthy (lookup enhancedData "updatedAt"))
  then set enhancedData "updatedAt" (VDate updatedNow)
  else enhancedData.

Definition insert_fields (createdNow updatedNow : Z)
    (schema : ModelDescriptor) (data : value) : list string :=
  known_keys schema (enhancedInsertData createdNow updatedNow schema data).

(** The column a field of an [INSERT] or of a [SET] list is printed as. *)
Definition column_of (schema : ModelDescriptor) (field : string) : string :=
  String_ (Schema.field schema field).


End Columns.

End Notions.

(* ================================================================== *)
(** ** The request handler of [pages/api/query.ts] and the creation of
    the client *)

Module Server.
Import Js Schema Sql Client Parser.

(** What the handler reads of a request: the method and, of the body,
    [sessionId] and [query] (a missing field is the empty text, falsy as
    [undefined] is). *)
Record Request := mkRequest {
  method : string;
  sessionId : string;
  query_text : string
}.

(** The body of a response: [{ success: true, result }], or
    [{ success: false, error }] with the message of the exception. *)
Inductive Body : Type :=
| Success (result : value)
| Failure (e : exn).

Record Response := mkResponse {
  status : nat;
  body : Body
}.

(** The outcome of [client.connect()] on a new [Client]: a connection, or
    a rejection. *)
Class Driver {db : Database} := {
  connect : result conn
}.

(** The static methods of [Object], which the client object reaches
    through its inherited [constructor]: what calling the one of a given
    name on a payload gives. It belongs to the host. *)
Class Builtins := {
  Object_static : string -> value -> result value
}.

Section Handler.
Context {host : Host} {db : Database} {driver : Driver} {builtins : Builtins}.
Variable eval : props -> string -> result value.

(** The readings of the clock: [times i] holds the two of the statement
    of index [i] that a method builds. *)
Variable times : nat -> Z * Z.

(** What the handler leaves behind: the response, the connection it
    opened with the statements sent over it ([None] when none was
    opened), and whether [$disconnect] was called. *)
Record Outcome := mkOutcome {
  response : Response;
  session : option world;
  disconnected : bool
}.

(** [createVirtualPrismaClient]: connect, then pin the search path of the
    session. The statement carries no parameter. *)
Definition search_path_statement (sessionId : string) : string :=
  "SET search_path TO " ++ quoted sessionId ++ ", public".

(** The three ways the creation ends: the connection is refused, the
    statement that pins the search path is rejected on the open
    connection, or the client is returned. *)
Inductive Creation : Type :=
| Refused (e : exn)
| SetupRejected (w : world) (e : exn)
| Created (w : world).

Definition createVirtualPrismaClient (sessionId : string) : Creation :=
  match connect with
  | Throw e => Refused e
  | Ok c =>
      match client_query (search_path_statement sessionId) []
              (mkWorld c []) with
      | (w, Ok _) => Created w
      | (w, Throw e) => SetupRejected w e
      end
  end.

(** The models of the client object: [virtualClient] has these seven. *)
Definition client_models : list string :=
  ["user"; "profile"; "post"; "category"; "tag"; "postTag"; "comment"].

(** The other own properties of the client object, functions all three. *)
Definition client_functions : list string :=
  ["$queryRaw"; "$queryRawUnsafe"; "$disconnect"].

Definition member (x : string) (l : list string) : bool :=
  existsb (String.eqb x) l.

Definition unknown_model (model : string) : exn :=
  Error ("Modelo '" ++ model
         ++ "' não encontrado no cliente virtual. Modelos disponíveis: user, profile, post, category, tag, postTag, comment").

Definition action_not_allowed (action : string) : exn :=
  Error ("Ação '" ++ action ++ "' não é permitida. Ações permitidas: "
         ++ Str.join ", " ALLOWED_ACTIONS).

(** [virtualModel[action](payload)] for one of the thirteen methods. *)
Definition call_method (model action : string) (payload : value)
    : M value :=
  if String.eqb action "findMany" then findMany model payload
  else if String.eqb action "findUnique" then findUnique model payload
  else if String.eqb action "findFirst" then findFirst model payload
  else if String.eqb action "create"
  then create model (fst (times 0)) (snd (times 0)) payload
  else if String.eqb action "createMany" then createMany model times payload
  else if String.eqb action "update"
  then update model (snd (times 0)) payload
  else if String.eqb action "updateMany"
  then updateMany model (snd (times 0)) payload
  else if String.eqb action "upsert"
  then upsert model (fst (times 0)) (snd (times 0)) payload
  else if String.eqb action "delete" then delete model payload
  else if String.eqb action "deleteMany" then deleteMany model payload
  else if String.eqb action "count" then count model payload
  else if String.eqb action "aggregate" then aggregate model payload
  else if String.eqb action "groupBy" then groupBy model payload
  else throw TypeError.

(** The check [!prisma[model]] and the call
    [prisma[model][action](payload)], for an allowed action. A property
    of the client object that is no model is either one of its three
    functions or a member of [Object.prototype]; of those only
    [constructor], which is [Object], has properties named as actions. *)
Definition dispatch (model action : string) (payload : value) : M value :=
  if member model client_models then call_method model action payload
  else if member model client_functions then throw TypeError
  else if String.eqb model "constructor"
  then lift (Object_static action payload)
  else if inherited model then throw TypeError
  else throw (unknown_model model).

Definition handler (req : Request) : Outcome :=
  if negb (String.eqb (method req) "POST") then
    mkOutcome (mkResponse 405 (Failure (Error "Method not allowed")))
              None false
  else if String.eqb (sessionId req) "" || String.eqb (query_text req) ""
  then
    mkOutcome
      (mkResponse 400 (Failure (Error "sessionId e query são obrigatórios")))
      None false
  else
    match parseUserQuery eval (query_text req) with
    | Throw e => mkOutcome (mkResponse 500 (Failure e)) None false
    | Ok parsed =>
        if negb (member (action parsed) ALLOWED_ACTIONS) then
          mkOutcome
            (mkResponse 500 (Failure (action_not_allowed (action parsed))))
            None false
        else
          match createVirtualPrismaClient (sessionId req) with
          | Refused e => mkOutcome (mkResponse 500 (Failure e)) None false
          | SetupRejected w e =>
              mkOutcome (mkResponse 500 (Failure e)) (Some w) false
          | Created w =>
              match dispatch (model parsed) (action parsed)
                      (payload parsed) w with
              | (w', Ok result) =>
                  mkOutcome (mkResponse 200 (Success result)) (Some w') true
              | (w', Throw e) =>
                  mkOutcome (mkResponse 500 (Failure e)) (Some w') true
              end
          end
    end.

End Handler.
End Server.

(* ================================================================== *)
(** ** Notions for the methods *)

Module MethodNotions.
Import Js Schema Sql Client Notions.

Section S.
Context {host : Host}.

(** The statement of [buildInsertQuery] for a record. *)
Definition insert_statement (createdNow updatedNow : Z)
    (schema : ModelDescriptor) (data : value) : CompiledQuery :=
  mkQuery
    (nl ++ "      INSERT INTO " ++ quoted (table schema) ++ " ("
     ++ Str.join ", "
          (map (fun field => quoted (column_of schema field))
               (insert_fields createdNow updatedNow schema data))
     ++ ")" ++ nl ++ "      VALUES ("
     ++ Str.join ", "
          (placeholders 0
             (List.length (insert_fields createdNow updatedNow schema data)))
     ++ ")" ++ nl ++ "      RETURNING *" ++ nl ++ "    ")
    (map (fun field =>
            lookup (enhancedInsertData createdNow updatedNow schema data) field)
         (insert_fields createdNow updatedNow schema data)).

(** The statement of [buildUpdateQuery] for data and a filter. *)
Definition update_statement (updatedNow : Z) (schema : ModelDescriptor)
    (data where_ : value) : CompiledQuery :=
  mkQuery
    (update_set updatedNow schema data
     ++ where_clause schema where_
          (List.length (set_values updatedNow schema data) + 1)
     ++ " RETURNING *")
    (set_values updatedNow schema data ++ where_values where_)%list.

(** The lookup of [findUnique] by a filter. *)
Definition lookup_statement (schema : ModelDescriptor) (where_ : value)
    : CompiledQuery :=
  mkQuery ("SELECT * FROM " ++ quoted (table schema)
           ++ select_where schema where_ ++ " LIMIT 1")
          (where_values where_).

End S.

Section E.
Context {db : Database}.

End E.

End MethodNotions.

(* ================================================================== *)
(** ** Notions for the builders *)

Module BuilderNotions.
Import Js Schema Sql.

(** [orderFields] of [buildSelectQuery]: the specs of an [orderBy], one or
    an array of them. *)
Definition order_specs (orderBy : value) : list value :=
  match orderBy with
  | VArr xs => xs
  | _ => [orderBy]
  end.


End BuilderNotions.

(* ================================================================== *)
(** ** Notions for the parser *)

Module ParserNotions.
Import Js Parser.

(** A line that the two searches for the active binding skip: its text
    starts, after the white space, with two slashes. *)
Definition is_comment_line (line : string) : bool :=
  Str.startsWith (Str.trim line) "//".

(** The names of the uncommented [const name = ... await prisma ...]
    declarations of a text, one per line that has one, from top to
    bottom. *)
Fixpoint const_declarations (lines : list string) : list string :=
  match lines with
  | line :: rest =>
      match const_of line with
      | Some v => v :: const_declarations rest
      | None => const_declarations rest
      end
  | [] => []
  end.

(** A text made of word characters. *)
Fixpoint is_word_text (s : string) : bool :=
  match s with
  | String c s' => Str.is_word c && is_word_text s'
  | EmptyString => true
  end.

(** A line on which the declaration of a binding is found. *)
Definition declares (currentVarName line : string) : bool :=
  test (re_start currentVarName) line.

End ParserNotions.

(* ================================================================== *)
(** ** Notions and example hosts for the handler *)

Module ServerNotions.
Import Js Schema Sql Client Parser Server.

Section S.
Context {host : Host} {db : Database}.

(** A computation that sends at most [n] statements and takes none
    back: the statements of the session after it are those before it,
    followed by at most [n] more. *)
Definition adds {A} (n : nat) (m : M A) : Prop :=
  forall w, exists l,
    issued (fst (m w)) = (issued w ++ l)%list /\ List.length l <= n.

End S.

(** Examples of hosts. A server that accepts the connection, with the
    two rows of the samples in the table. *)
Definition seeded : Driver (db := Samples.table_engine) :=
  {| connect := Ok ([Samples.alice; Samples.bob]
                    : @conn Samples.table_engine) |}.

(** An engine that rejects every statement. *)
Definition locked_engine : Database :=
  {| conn := unit;
     run := fun (c : unit) (_ : string) (_ : list value) =>
       (c, Throw (DatabaseError "permission denied")) |}.

Definition locked : Driver (db := locked_engine) :=
  {| connect := Ok (tt : @conn locked_engine) |}.

(** [Object] has none of the allowed actions but [create] and, on a
    recent host, [groupBy]; the example host has neither. *)
Definition no_statics : Builtins :=
  {| Object_static := fun _ _ => Throw TypeError |}.

Definition epoch (i : nat) : Z * Z := (0%Z, 0%Z).

Definition post (sessionId query : string) : Request :=
  mkRequest "POST" sessionId query.

End ServerNotions.

(* ================================================================== *)
(** * Properties *)

(** ** Plain objects *)

Module JsFacts.
Import Js.

Lemma truthy_not_nullish (v : value) : truthy v = true -> nullish v = false.
Proof. destruct v; simpl; intros; congruence. Qed.

Lemma entries_of_truthy (v : value) :
  truthy v = true -> Object_entries v = Ok (spread v).
Proof.
  intros Hv. unfold Object_entries.
  now rewrite (truthy_not_nullish v Hv).
Qed.

Lemma assoc_set_same (o : props) (k : string) (v : value) :
  assoc k (set o k v) = Some v.
Proof.
  induction o as [|[k' v'] o IH]; simpl.
  - now rewrite String.eqb_refl.
  - destruct (String.eqb k' k) eqn:E; simpl; rewrite E; auto.
Qed.

Lemma assoc_set_other (o : props) (k k' : string) (v : value) :
  k' <> k -> assoc k' (set o k v) = assoc k' o.
Proof.
  intros Hk. induction o as [|[k0 v0] o IH]; simpl.
  - destruct (String.eqb_spec k k'); congruence.
  - destruct (String.eqb_spec k0 k) as [->|Hne]; simpl.
    + destruct (String.eqb_spec k k'); congruence.
    + destruct (String.eqb_spec k0 k'); auto.
Qed.

Lemma lookup_set_same (o : props) (k : string) (v : value) :
  lookup (set o k v) k = v.
Proof. unfold lookup. now rewrite assoc_set_same. Qed.

Lemma lookup_set_other (o : props) (k k' : string) (v : value) :
  k' <> k -> lookup (set o k v) k' = lookup o k'.
Proof. intros Hk. unfold lookup. now rewrite assoc_set_other. Qed.

(** Writing a property twice keeps the last value only. *)
Lemma set_set (o : props) (k : string) (v v' : value) :
  set (set o k v) k v' = set o k v'.
Proof.
  induction o as [|[k0 v0] o IH]; simpl.
  - now rewrite String.eqb_refl.
  - destruct (String.eqb k0 k) eqn:E; simpl; rewrite E; congruence.
Qed.

End JsFacts.

(** ** Strings *)

Module StrFacts.
Lemma append_assoc (a b c : string) : (a ++ b) ++ c = a ++ (b ++ c).
Proof. induction a; simpl; congruence. Qed.
Lemma append_nil_r (a : string) : a ++ "" = a.
Proof. induction a; simpl; congruence. Qed.

Lemma count_char_app (a : ascii) (s t : string) :
  Str.count_char a (s ++ t) = Str.count_char a s + Str.count_char a t.
Proof. induction s as [|c s IH]; simpl; [reflexivity|]. rewrite IH. lia. Qed.

Lemma count_char_join (a : ascii) (sep : string) (l : list string) :
  Str.count_char a sep = 0 ->
  Str.count_char a (Str.join sep l) = list_sum (map (Str.count_char a) l).
Proof.
  intros Hsep. unfold Str.join.
  induction l as [|x l IH]; [reflexivity|].
  destruct l as [|y l].
  - simpl. lia.
  - change (String.concat sep (x :: y :: l))
      with (x ++ sep ++ String.concat sep (y :: l)).
    rewrite !count_char_app, IH, Hsep. simpl. lia.
Qed.

Lemma count_char_digits (a : ascii) (d : uint) :
  Str.is_digit a = false -> Str.count_char a (NilEmpty.string_of_uint d) = 0.
Proof.
  intros Ha.
  induction d; cbn [Str.count_char NilEmpty.string_of_uint];
    rewrite ?IHd; try reflexivity;
    match goal with
    | |- context [Ascii.eqb ?c a] =>
        destruct (Ascii.eqb_spec c a) as [<-|_]; [discriminate Ha|reflexivity]
    end.
Qed.

Lemma count_char_of_nat (a : ascii) (n : nat) :
  Str.is_digit a = false -> Str.count_char a (Str.of_nat n) = 0.
Proof. apply count_char_digits. Qed.

Lemma prefix_split (p s : string) :
  String.prefix p s = true -> s = p ++ Str.drop (String.length p) s.
Proof.
  revert s. induction p as [|c p IH]; intros s; simpl.
  - now destruct s.
  - destruct s as [|d s]; [discriminate|].
    cbn [String.prefix].
    destruct (Ascii.ascii_dec c d) as [->|]; [|discriminate].
    intros Hp. cbn [String.length Str.drop append]. f_equal. now apply IH.
Qed.

(** A text that contains a pattern contains every character of it. *)
Lemma includes_count (a : ascii) (s p : string) :
  Str.includes s p = true -> Str.count_char a p <= Str.count_char a s.
Proof.
  induction s as [|c s IH]; cbn [Str.includes]; intros Hp;
    apply orb_true_iff in Hp as [Hp|Hp];
    try discriminate Hp; try (specialize (IH Hp); simpl; lia);
    apply prefix_split in Hp; set (t := Str.drop _ _) in Hp; rewrite Hp;
    rewrite count_char_app; lia.
Qed.






End StrFacts.

(** ** The builders, clause by clause *)

Module SelectFacts.
Import Js Schema Sql Client JsFacts Notions StrFacts.
Section S.
Context {host : Host}.

Ltac close_clauses :=
  unfold offset_clause; cbn [query values fst snd];
  destruct (truthy (lookup _ "skip"));
  now rewrite ?append_assoc, ?append_nil_r.

Lemma select_limit_1 (m : string) (o : props) :
  buildSelectQuery m (VObj (set o "take" (VNum 1))) =
  (q0 <- buildSelectQuery m
           (VObj [("where", lookup o "where");
                  ("orderBy", lookup o "orderBy")]) ;;
   Ok (mkQuery (query q0 ++ " LIMIT 1" ++ offset_clause (lookup o "skip"))
               (values q0))).
Proof.
  unfold buildSelectQuery. simpl default_empty.
  destruct (model_of m) as [schema|]; [|reflexivity].
  cbn [get bind].
  rewrite !lookup_set_other by discriminate.
  rewrite lookup_set_same.
  change (lookup [("where", lookup o "where"); ("orderBy", lookup o "orderBy")] "where") with (lookup o "where").
  change (lookup [("where", lookup o "where"); ("orderBy", lookup o "orderBy")] "orderBy") with (lookup o "orderBy").
  change (lookup [("where", lookup o "where"); ("orderBy", lookup o "orderBy")] "take") with VUndefined.
  change (lookup [("where", lookup o "where"); ("orderBy", lookup o "orderBy")] "skip") with VUndefined.
  change (truthy VUndefined) with false. change (truthy (VNum 1)) with true.
  change (String_ (VNum 1)) with "1". cbv iota.
  destruct (truthy (lookup o "where")).
  - destruct (Object_entries (lookup o "where")) as [entries|e]; cbn [bind]; [|reflexivity].
    destruct (truthy (lookup o "orderBy")).
    + destruct (orderClauses schema _) as [cs|e]; cbn [bind]; [|reflexivity].
      close_clauses.
    + cbn [bind]. close_clauses.
  - cbn [bind]. destruct (truthy (lookup o "orderBy")).
    + destruct (orderClauses schema _) as [cs|e]; cbn [bind]; [|reflexivity].
      close_clauses.
    + cbn [bind]. close_clauses.
Qed.

(** The query of a lookup by filter alone. *)
Lemma select_where_only (m : string) (schema : ModelDescriptor) (f : value) :
  model_of m = Some schema ->
  buildSelectQuery m (VObj [("where", f)]) =
  Ok (mkQuery ("SELECT * FROM " ++ quoted (table schema) ++ select_where schema f)
              (where_values f)).
Proof.
  intros Hm. unfold buildSelectQuery, select_where, where_values.
  simpl default_empty. rewrite Hm. cbn [get bind].
  change (lookup [("where", f)] "where") with f.
  change (lookup [("where", f)] "orderBy") with VUndefined.
  change (lookup [("where", f)] "take") with VUndefined.
  change (lookup [("where", f)] "skip") with VUndefined.
  change (truthy VUndefined) with false. cbv iota.
  destruct (truthy f) eqn:Hf.
  - rewrite (entries_of_truthy f Hf). cbn [bind fst snd].
    destruct (whereConditions schema (spread f) 1); cbn [bind fst snd].
    + now rewrite append_nil_r.
    + now rewrite append_assoc.
  - cbn [bind fst snd]. now rewrite append_nil_r.
Qed.

Lemma select_one_by_where (m : string) (schema : ModelDescriptor) (f : value) :
  model_of m = Some schema ->
  buildSelectQuery m (VObj [("where", f); ("take", VNum 1)]) =
  Ok (mkQuery ("SELECT * FROM " ++ quoted (table schema)
               ++ select_where schema f ++ " LIMIT 1")
              (where_values f)).
Proof.
  intros Hm.
  change (VObj [("where", f); ("take", VNum 1)])
    with (VObj (set [("where", f)] "take" (VNum 1))).
  rewrite select_limit_1.
  change (lookup [("where", f)] "where") with f.
  change (lookup [("where", f)] "orderBy") with VUndefined.
  change (lookup [("where", f)] "skip") with VUndefined.
  assert (E : buildSelectQuery m (VObj [("where", f); ("orderBy", VUndefined)])
              = buildSelectQuery m (VObj [("where", f)])) by reflexivity.
  rewrite E, (select_where_only m schema f Hm). cbn [bind query values].
  unfold offset_clause. change (truthy VUndefined) with false. cbv iota.
  now rewrite !append_assoc, append_nil_r.
Qed.

Lemma delete_by_where (m : string) (schema : ModelDescriptor) (args f : value) :
  model_of m = Some schema ->
  get args "where" = Ok f ->
  buildDeleteQuery m args =
  Ok (mkQuery ("DELETE FROM " ++ quoted (table schema) ++ where_clause schema f 1)
              (where_values f)).
Proof.
  intros Hm Hw. unfold buildDeleteQuery, where_clause, where_values.
  rewrite Hm, Hw. cbn [bind].
  destruct (truthy f) eqn:Hf.
  - rewrite (entries_of_truthy f Hf). cbn [bind]. now rewrite append_assoc.
  - now rewrite append_nil_r.
Qed.

Lemma count_by_where (m : string) (schema : ModelDescriptor) (args f : value) :
  model_of m = Some schema ->
  get args "where" = Ok f ->
  buildCountQuery m args =
  Ok (mkQuery ("SELECT COUNT(*) as count FROM " ++ quoted (table schema)
               ++ where_clause schema f 1)
              (where_values f)).
Proof.
  intros Hm Hw. unfold buildCountQuery, where_clause, where_values.
  rewrite Hm, Hw. cbn [bind].
  destruct (truthy f) eqn:Hf.
  - rewrite (entries_of_truthy f Hf). cbn [bind]. now rewrite append_assoc.
  - now rewrite append_nil_r.
Qed.
End S.
End SelectFacts.

(** ** The methods *)

Module ClientProps.
Import Js Schema Sql Client JsFacts Notions StrFacts SelectFacts.

Section P.
Context {host : Host} {db : Database}.

Lemma mbind_eq {A B} (c : M A) (k : A -> M B) (w : world) :
  mbind c k w =
  match c w with
  | (w', Ok a) => k a w'
  | (w', Throw e) => (w', Throw e)
  end.
Proof. reflexivity. Qed.

Lemma lift_eq {A} (r : result A) (w : world) : lift r w = (w, r).
Proof. reflexivity. Qed.

Lemma findUnique_by_where (m : string) (schema : ModelDescriptor)
    (f : value) (w : world) :
  model_of m = Some schema ->
  let sel := mkQuery ("SELECT * FROM " ++ quoted (table schema)
                      ++ select_where schema f ++ " LIMIT 1")
                     (where_values f) in
  findUnique m (VObj [("where", f)]) w =
  match run (connection w) (query sel) (values sel) with
  | (c, Ok found) => (mkWorld c (issued w ++ [sel]), Ok (first_or_null found))
  | (c, Throw e) => (mkWorld c (issued w ++ [sel]), Throw e)
  end.
Proof.
  intros Hm sel. unfold findUnique, mbind, lift.
  change (with_take_1 (VObj [("where", f)]))
    with (VObj [("where", f); ("take", VNum 1)]).
  rewrite (select_one_by_where m schema f Hm).
  unfold client_query. cbn [query values].
  fold sel. change (where_values f) with (values sel).
  change ("SELECT * FROM " ++ quoted (table schema) ++ select_where schema f ++ " LIMIT 1") with (query sel).
  destruct (run (connection w) (query sel) (values sel)) as [c [found|e]];
    reflexivity.
Qed.

(** C6. [delete] first sends the lookup of [findUnique] on the filter. If
    the engine answers with no row, it raises the error "Registro não
    encontrado para exclusão" and the lookup is the only statement sent:
    no [DELETE] is issued. If a row comes back, it sends the [DELETE] built
    from the same filter and returns that row, the one fetched before the
    deletion (or the rejection of the engine, if it rejects the
    [DELETE]). *)
Theorem delete_checks_then_acts (m : string) (schema : ModelDescriptor)
    (args f : value) (w : world) :
  model_of m = Some schema ->
  get args "where" = Ok f ->
  let sel := mkQuery ("SELECT * FROM " ++ quoted (table schema)
                      ++ select_where schema f ++ " LIMIT 1")
                     (where_values f) in
  let del := mkQuery ("DELETE FROM " ++ quoted (table schema)
                      ++ where_clause schema f 1)
                     (where_values f) in
  match run (connection w) (query sel) (values sel) with
  | (c1, Throw e) =>
      delete m args w = (mkWorld c1 (issued w ++ [sel]), Throw e)
  | (c1, Ok found) =>
      match rows found with
      | [] =>
          delete m args w =
          (mkWorld c1 (issued w ++ [sel]),
           Throw (Error "Registro não encontrado para exclusão"))
      | r0 :: _ =>
          match run c1 (query del) (values del) with
          | (c2, Ok _) =>
              delete m args w =
              (mkWorld c2 (issued w ++ [sel; del]), Ok (VObj r0))
          | (c2, Throw e) =>
              delete m args w =
              (mkWorld c2 (issued w ++ [sel; del]), Throw e)
          end
      end
  end.
Proof.
  intros Hm Hw sel del.
  unfold delete. rewrite mbind_eq, lift_eq, Hw, mbind_eq.
  rewrite (findUnique_by_where m schema f w Hm).
  fold sel.
  destruct (run (connection w) (query sel) (values sel)) as [c1 [found|e]];
    [|reflexivity].
  unfold first_or_null.
  destruct (rows found) as [|r0 rest]; [reflexivity|].
  cbn [truthy negb]. rewrite mbind_eq, lift_eq.
  rewrite (delete_by_where m schema args f Hm Hw). fold del.
  rewrite mbind_eq. unfold client_query. cbn [connection issued].
  change (query del) with ("DELETE FROM " ++ quoted (table schema) ++ where_clause schema f 1).
  change (values del) with (where_values f).
  destruct (run c1 _ _) as [c2 [r|e]]; unfold ret;
    now rewrite <- app_assoc.
Qed.

Lemma count_query_of_where (m : string) (args f : value) :
  get args "where" = Ok f ->
  buildCountQuery m args =
  match model_of m with
  | Some schema =>
      Ok (mkQuery ("SELECT COUNT(*) as count FROM " ++ quoted (table schema)
                   ++ where_clause schema f 1)
                  (where_values f))
  | None => Throw TypeError
  end.
Proof.
  intros Hw. destruct (model_of m) as [schema|] eqn:Hm.
  - now apply count_by_where.
  - unfold buildCountQuery. now rewrite Hm.
Qed.

Lemma where_clause_falsy (schema : ModelDescriptor) (f : value) (i : nat) :
  truthy f = false -> where_clause schema f i = "" /\ where_values f = [].
Proof. intros Hf. unfold where_clause, where_values. now rewrite Hf. Qed.

(** What [aggregate] hands to [count] compiles as the payload itself. *)
Lemma count_query_of_aggregate (m : string) (args f : value) :
  get args "where" = Ok f ->
  buildCountQuery m
    (default_empty (if truthy f then VObj [("where", f)] else VObj []))
  = buildCountQuery m args.
Proof.
  intros Hw. rewrite (count_query_of_where m args f Hw).
  destruct (truthy f) eqn:Hf; cbn [default_empty].
  - now rewrite (count_query_of_where m (VObj [("where", f)]) f eq_refl).
  - rewrite (count_query_of_where m (VObj []) VUndefined eq_refl).
    destruct (model_of m) as [schema|]; [|reflexivity].
    destruct (where_clause_falsy schema f 1 Hf) as [-> ->].
    reflexivity.
Qed.

(** C7, as the code has it. [aggregate] runs [count] on the same filter,
    so it sends the same [SELECT COUNT( * )] statement with the same
    parameters, and wraps the number [N] it gets as
    [{ _count: { _all: N } }]: the keys are [_count] and [_all], and no
    other aggregate is computed. *)
Theorem aggregate_is_wrapped_count (m : string) (args : value) (w : world) :
  aggregate m args w =
  match count m args w with
  | (w', Ok n) => (w', Ok (VObj [("_count", VObj [("_all", n)])]))
  | (w', Throw e) => (w', Throw e)
  end.
Proof.
  unfold aggregate. rewrite mbind_eq, lift_eq.
  destruct (get (default_empty args) "where") as [f|e] eqn:Hw.
  - rewrite mbind_eq.
    assert (E : count m (if truthy f then VObj [("where", f)] else VObj []) w
                = count m args w).
    { unfold count. rewrite !mbind_eq, !lift_eq.
      now rewrite (count_query_of_aggregate m (default_empty args) f Hw). }
    rewrite E. destruct (count m args w) as [w' [n|e]]; reflexivity.
  - unfold count. rewrite mbind_eq, lift_eq.
    assert (E : buildCountQuery m (default_empty args) = Throw e).
    { unfold buildCountQuery. rewrite Hw.
      destruct (model_of m); [reflexivity|].
      destruct args; simpl in Hw; congruence. }
    now rewrite E.
Qed.

(** C9. When the engine answers the lookup with no row, [findUnique] and
    [findFirst] return [null]; they raise nothing. The lookup by a filter
    always compiles, whatever the filter. *)
Theorem find_returns_null_without_row (m : string)
    (schema : ModelDescriptor) (f : value) (w : world)
    (c : conn) (found : QueryResult) :
  model_of m = Some schema ->
  let sel := mkQuery ("SELECT * FROM " ++ quoted (table schema)
                      ++ select_where schema f ++ " LIMIT 1")
                     (where_values f) in
  run (connection w) (query sel) (values sel) = (c, Ok found) ->
  rows found = [] ->
  findUnique m (VObj [("where", f)]) w
    = (mkWorld c (issued w ++ [sel]), Ok VNull)
  /\ findFirst m (VObj [("where", f)]) w
    = (mkWorld c (issued w ++ [sel]), Ok VNull).
Proof.
  intros Hm sel Hrun Hrows.
  assert (E : findUnique m (VObj [("where", f)]) w
              = (mkWorld c (issued w ++ [sel]), Ok VNull)).
  { rewrite (findUnique_by_where m schema f w Hm). fold sel.
    rewrite Hrun. unfold first_or_null. now rewrite Hrows. }
  split; [exact E|exact E].
Qed.

(** C5, as the code has it. [findUnique] and [findFirst] are the same
    computation. Both compile [{ ...args, take: 1 }]: the query is the one
    of the filter and the ordering alone, followed by [LIMIT 1] and the
    offset, whatever [take] the caller wrote. A [where] is not required:
    without filter and ordering the query is the bare [SELECT] with
    [LIMIT 1]. *)
Theorem findFirst_findUnique_limit_1 (m : string) (args : value) :
  findUnique m args = findFirst m args
  /\ (forall t : value,
        buildSelectQuery m
          (with_take_1 (VObj (set (spread args) "take" t)))
        = buildSelectQuery m (with_take_1 args))
  /\ buildSelectQuery m (with_take_1 args)
     = (q0 <- buildSelectQuery m
                (VObj [("where", lookup (spread args) "where");
                       ("orderBy", lookup (spread args) "orderBy")]) ;;
        Ok (mkQuery (query q0 ++ " LIMIT 1"
                     ++ offset_clause (lookup (spread args) "skip"))
                    (values q0)))
  /\ (forall schema : ModelDescriptor,
        model_of m = Some schema ->
        truthy (lookup (spread args) "where") = false ->
        truthy (lookup (spread args) "orderBy") = false ->
        buildSelectQuery m (with_take_1 args)
        = Ok (mkQuery ("SELECT * FROM " ++ quoted (table schema)
                       ++ " LIMIT 1"
                       ++ offset_clause (lookup (spread args) "skip"))
                      [])).
Proof.
  split; [|split; [|split]].
  - destruct args; reflexivity.
  - intros t. unfold with_take_1. cbn [spread]. now rewrite set_set.
  - unfold with_take_1. apply select_limit_1.
  - intros schema Hm Hw Ho. unfold with_take_1. rewrite select_limit_1.
    unfold buildSelectQuery. simpl default_empty. rewrite Hm.
    cbn [get bind].
    set (o := spread args) in *.
    change (lookup [("where", lookup o "where"); ("orderBy", lookup o "orderBy")] "where") with (lookup o "where").
    change (lookup [("where", lookup o "where"); ("orderBy", lookup o "orderBy")] "orderBy") with (lookup o "orderBy").
    change (lookup [("where", lookup o "where"); ("orderBy", lookup o "orderBy")] "take") with VUndefined.
    change (lookup [("where", lookup o "where"); ("orderBy", lookup o "orderBy")] "skip") with VUndefined.
    rewrite Hw, Ho. change (truthy VUndefined) with false.
    cbn [bind fst snd query values]. now rewrite !append_assoc.
Qed.
End P.

Import Samples.

Lemma find_returns_null_without_row_witness :
  findUnique (host := utc) (db := table_engine) "user"
    (VObj [("where", VObj [("id", VNum 7)])])
    (mkWorld (db := table_engine) [] [])
  = (mkWorld (db := table_engine) []
       [mkQuery ("SELECT * FROM " ++ quoted "users" ++ " WHERE "
                 ++ quoted "id" ++ " = $1 LIMIT 1") [VNum 7]],
     Ok VNull).
Proof.
  exact (proj1 (find_returns_null_without_row (host := utc)
                  (db := table_engine) "user" _ (VObj [("id", VNum 7)])
                  (mkWorld (db := table_engine) [] [])
                  [] (mkResult [] (Some 0))
                  eq_refl eq_refl eq_refl)).
Defined.

Lemma delete_checks_then_acts_witness :
  delete (host := utc) (db := table_engine) "user"
    (VObj [("where", VObj [("id", VNum 1)])])
    (mkWorld (db := table_engine) [alice] [])
  = (mkWorld (db := table_engine) []
       [ mkQuery ("SELECT * FROM " ++ quoted "users" ++ " WHERE "
                  ++ quoted "id" ++ " = $1 LIMIT 1") [VNum 1];
         mkQuery ("DELETE FROM " ++ quoted "users" ++ " WHERE "
                  ++ quoted "id" ++ " = $1") [VNum 1] ],
     Ok (VObj alice)).
Proof.
  exact (delete_checks_then_acts (host := utc) (db := table_engine)
           "user" _ (VObj [("where", VObj [("id", VNum 1)])])
           (VObj [("id", VNum 1)])
           (mkWorld (db := table_engine) [alice] [])
           eq_refl eq_refl).
Defined.

Lemma findFirst_findUnique_limit_1_witness :
  buildSelectQuery (host := utc) "user"
    (with_take_1 (VObj [("take", VNum 5)]))
  = Ok (mkQuery ("SELECT * FROM " ++ quoted "users" ++ " LIMIT 1") []).
Proof.
  exact (proj2 (proj2 (proj2
           (findFirst_findUnique_limit_1 (host := utc) (db := table_engine)
              "user" (VObj [("take", VNum 5)]))))
           _ eq_refl eq_refl eq_refl).
Defined.

(** C5 as stated fails: [findUnique] does not require a [where]. On a
    payload without one it compiles the bare [SELECT] with [LIMIT 1] and
    returns the first row of the table. *)
Lemma findUnique_without_where :
  findUnique (host := utc) (db := table_engine) "user" (VObj [])
    (mkWorld (db := table_engine) [alice; bob] [])
  = (mkWorld (db := table_engine) [alice; bob]
       [mkQuery ("SELECT * FROM " ++ quoted "users" ++ " LIMIT 1") []],
     Ok (VObj alice)).
Proof. reflexivity. Qed.

(** C7 as stated fails: the result is not [{ count: { all: N } }]. With
    two rows in the table the result is [{ _count: { _all: 2 } }], which
    has no property [count]. *)
Lemma aggregate_result_keys :
  let result :=
    snd (aggregate (host := utc) (db := table_engine) "user" (VObj [])
           (mkWorld (db := table_engine) [alice; bob] [])) in
  result = Ok (VObj [("_count", VObj [("_all", VNum 2)])])
  /\ result <> Ok (VObj [("count", VObj [("all", VNum 2)])])
  /\ (v <- result ;; get v "count") = Ok VUndefined.
Proof.
  cbv zeta. split; [reflexivity|]. split; [|reflexivity].
  intros E. vm_compute in E. discriminate E.
Qed.
End ClientProps.

(** ** The parser *)

Module ParserProps.
Import Js Parser Notions Samples.

Lemma search_some {A} (m : string -> option A) (s : string) (i j : nat) (a : A) :
  search m i s = Some (j, a) -> exists s', m s' = Some a.
Proof.
  revert i. induction s as [|c s IH]; intros i; simpl.
  - destruct (m "") eqn:E; [|discriminate].
    intros [= _ <-]. now exists "".
  - destruct (m (String c s)) eqn:E.
    + intros [= _ <-]. now exists (String c s).
    + apply IH.
Qed.

Lemma re_console_log_nonempty (s v : string) :
  re_console_log s = Some v -> v <> "".
Proof.
  unfold re_console_log.
  destruct (String.prefix "console.log(" s); [|discriminate].
  destruct (Str.span_word (Str.drop 12 s)) as [w rest].
  destruct (String.eqb_spec w ""); [discriminate|].
  destruct (String.prefix ")" rest); [|discriminate].
  now intros [= <-].
Qed.

Lemma console_log_of_nonempty (line v : string) :
  console_log_of line = Some v -> v <> "".
Proof.
  unfold console_log_of.
  destruct (_ && _); [|discriminate].
  destruct (search re_console_log 0 (Str.trim line)) as [[j a]|] eqn:E;
    [|discriminate].
  simpl. intros [= <-].
  destruct (search_some _ _ _ _ _ E) as [s' Hs'].
  now apply (re_console_log_nonempty s').
Qed.

Lemma find_console_log_first (lines : list string) :
  find_console_log lines = hd "" (console_log_calls lines).
Proof.
  induction lines as [|line rest IH]; simpl; [reflexivity|].
  destruct (console_log_of line); [reflexivity|exact IH].
Qed.

Lemma console_log_calls_nonempty (lines : list string) (v : string) :
  In v (console_log_calls lines) -> v <> "".
Proof.
  induction lines as [|line rest IH]; simpl; [tauto|].
  destruct (console_log_of line) as [u|] eqn:E; [|exact IH].
  intros [<-|Hin]; [now apply (console_log_of_nonempty line)|now apply IH].
Qed.

(** C2, as the code has it. The loop leaves at the first uncommented
    [console.log(variable)] it meets: with one such call or several, the
    active binding is the variable of the first one in line order. *)
Theorem first_console_log_is_active (lines : list string) :
  find_console_log lines = hd "" (console_log_calls lines)
  /\ (forall (v : string) (later : list string),
        console_log_calls lines = v :: later ->
        active_binding lines = Ok v).
Proof.
  split; [apply find_console_log_first|].
  intros v later Hc. unfold active_binding.
  rewrite find_console_log_first, Hc. simpl hd.
  assert (Hv : v <> "").
  { apply (console_log_calls_nonempty lines). rewrite Hc. now left. }
  apply String.eqb_neq in Hv. cbv zeta. rewrite Hv. now rewrite Hv.
Qed.

Lemma first_console_log_is_active_witness :
  active_binding (Str.split_lines two_statements) = Ok "a".
Proof.
  exact (proj2 (first_console_log_is_active (Str.split_lines two_statements))
           "a" ["b"] eq_refl).
Defined.

(** C2 as stated fails. In a text with two statements, each followed by
    its uncommented [console.log], the last call names [b] and the parser
    selects [a], the first: it answers [user.findMany], not
    [post.count]. *)
Lemma last_console_log_is_not_active :
  console_log_calls (Str.split_lines two_statements) = ["a"; "b"]
  /\ active_binding (Str.split_lines two_statements) = Ok "a"
  /\ active_binding (Str.split_lines two_statements)
     <> Ok (last (console_log_calls (Str.split_lines two_statements)) "")
  /\ parseUserQuery eval_name two_statements
     = Ok (mkParsed "user" "findMany" VUndefined).
Proof.
  split; [reflexivity|]. split; [reflexivity|]. split; [|reflexivity].
  intros E. vm_compute in E. discriminate E.
Qed.

Section Evaluation.
Variable eval : props -> string -> result value.



End Evaluation.





End ParserProps.

(** ** The schema and the text of the statements *)

Module SchemaFacts.
Import Js Schema Sql Notions StrFacts.

Lemma assoc_In {A} (k : string) (l : list (string * A)) (v : A) :
  assoc k l = Some v -> In v (map snd l).
Proof.
  induction l as [|[k' v'] l IH]; simpl; [discriminate|].
  destruct (String.eqb k' k); [intros [= ->]; now left|right; auto].
Qed.

Lemma plain_count (s : string) (a : ascii) :
  plain s = true -> In a special -> Str.count_char a s = 0.
Proof.
  unfold plain. rewrite forallb_forall. intros Hs Ha.
  now apply Nat.eqb_eq, Hs.
Qed.

Lemma model_plain (m : string) (schema : ModelDescriptor) :
  model_of m = Some schema -> plain_schema schema = true.
Proof.
  intros Hm. apply assoc_In in Hm.
  assert (Hall : forallb plain_schema (map snd SCHEMA_MAPPING) = true)
    by reflexivity.
  rewrite forallb_forall in Hall. now apply Hall.
Qed.

Lemma fields_object_assoc (schema : ModelDescriptor) (k : string) :
  assoc k (fields_object schema)
  = option_map VStr (assoc k (fields schema)).
Proof.
  unfold fields_object.
  induction (fields schema) as [|[k' c] l IH]; simpl; [reflexivity|].
  now destruct (String.eqb k' k).
Qed.

(** [schema.fields[key]] is the column of a key of the field map, a member
    of [Object.prototype] for an inherited name, and [undefined] for
    every other key. *)
Lemma field_cases (schema : ModelDescriptor) (k : string) :
  (exists col, assoc k (fields schema) = Some col
               /\ Schema.field schema k = VStr col)
  \/ (assoc k (fields schema) = None
      /\ exists v, assoc k Object_prototype = Some v
                   /\ Schema.field schema k = v)
  \/ (assoc k (fields schema) = None /\ inherited k = false
      /\ Schema.field schema k = VUndefined).
Proof.
  unfold Schema.field, lookup, inherited. rewrite fields_object_assoc.
  destruct (assoc k (fields schema)) as [col|]; cbn [option_map].
  - left. exists col. split; reflexivity.
  - right. destruct (assoc k Object_prototype) as [v|].
    + left. split; [reflexivity|]. exists v. split; reflexivity.
    + right. repeat split; reflexivity.
Qed.

Section Rendering.
Context {host : Host}.

Lemma prototype_plain (k : string) (v : value) :
  assoc k Object_prototype = Some v -> plain (String_ v) = true.
Proof.
  intros Hk. apply assoc_In in Hk. simpl in Hk.
  repeat (destruct Hk as [<-|Hk]; [reflexivity|]). contradiction.
Qed.

(** What a key that the field map resolves is printed as has no special
    character. *)
Lemma known_field_plain (m : string) (schema : ModelDescriptor) (k : string) :
  model_of m = Some schema ->
  truthy (Schema.field schema k) = true ->
  plain (String_ (Schema.field schema k)) = true.
Proof.
  intros Hm Hk.
  destruct (field_cases schema k)
    as [[col [Ha ->]]|[[_ [v [Hv ->]]]|[_ [_ Hu]]]].
  - apply model_plain in Hm. unfold plain_schema in Hm.
    apply andb_true_iff in Hm as [_ Hcols]. rewrite forallb_forall in Hcols.
    apply assoc_In in Ha. specialize (Hcols col Ha).
    now apply andb_true_iff in Hcols as [Hc _].
  - now apply (prototype_plain k).
  - rewrite Hu in Hk. discriminate Hk.
Qed.

Lemma known_keys_truthy (schema : ModelDescriptor) (o : props) (k : string) :
  In k (known_keys schema o) -> truthy (Schema.field schema k) = true.
Proof. unfold known_keys. rewrite filter_In. tauto. Qed.

Lemma count_quoted (a : ascii) (x : string) :
  In a special -> a <> ascii_of_nat 34 ->
  Str.count_char a (quoted x) = Str.count_char a x.
Proof.
  intros Ha Hq. unfold quoted. rewrite !count_char_app.
  simpl in Ha. destruct Ha as [<-|[<-|[<-|[<-|[]]]]];
    try (exfalso; now apply Hq); simpl; lia.
Qed.

Lemma special_not_digit (a : ascii) : In a special -> Str.is_digit a = false.
Proof.
  simpl. intros [<-|[<-|[<-|[<-|[]]]]]; reflexivity.
Qed.


End Rendering.
End SchemaFacts.

(** ** Updates *)

Module UpdateProps.
Import Js Schema Sql Client Notions JsFacts StrFacts SchemaFacts SelectFacts ClientProps.

Section U.
Context {host : Host} {db : Database}.

Lemma update_query_shape (t : Z) (m : string) (schema : ModelDescriptor)
    (args data f : value) :
  model_of m = Some schema ->
  get args "data" = Ok data ->
  get args "where" = Ok f ->
  buildUpdateQuery t m args =
  Ok (mkQuery
        (update_set t schema data
         ++ where_clause schema f (List.length (set_values t schema data) + 1)
         ++ " RETURNING *")
        (set_values t schema data ++ where_values f)).
Proof.
  intros Hm Hd Hw. unfold buildUpdateQuery. rewrite Hm, Hd, Hw.
  cbn [bind]. unfold where_clause, where_values.
  fold (set_fields t schema data). fold (set_values t schema data).
  fold (update_set t schema data).
  destruct (truthy f) eqn:Hf.
  - rewrite (entries_of_truthy f Hf). cbn [bind fst snd].
    now rewrite !append_assoc.
  - cbn [bind fst snd]. now rewrite app_nil_r.
Qed.


End U.

Import Samples.

End UpdateProps.

(** ** Placeholders and parameters *)

Module PlaceholderProps.
Import Js Schema Sql Client Notions JsFacts StrFacts SchemaFacts SelectFacts UpdateProps.

Section P.
Context {host : Host}.

Lemma dollar_special : In (ascii_of_nat 36) special.
Proof. simpl. tauto. Qed.







End P.

Import Samples.



End PlaceholderProps.

(** ** Identifiers *)

Module IdentifierFacts.
Import Js Schema Sql Notions StrFacts SchemaFacts.

Lemma scan_skip (a b : string) :
  Str.count_char dquote a = 0 ->
  scan_identifiers None (a ++ b) = scan_identifiers None b.
Proof.
  induction a as [|c a IH]; [reflexivity|].
  cbn [Str.count_char append scan_identifiers]. fold dquote.
  destruct (Ascii.eqb c dquote); [discriminate|]. exact IH.
Qed.

Lemma scan_inside (text x b : string) :
  Str.count_char dquote x = 0 ->
  scan_identifiers (Some text) (x ++ String dquote b)
  = (text ++ x) :: scan_identifiers None b.
Proof.
  revert text. induction x as [|c x IH]; intros text.
  - intros _. cbn. now rewrite append_nil_r.
  - cbn [Str.count_char append scan_identifiers]. fold dquote.
    destruct (Ascii.eqb c dquote); [discriminate|]. intros Hx.
    rewrite (IH _ Hx). now rewrite append_assoc.
Qed.

Lemma scan_quoted (x b : string) :
  Str.count_char dquote x = 0 ->
  scan_identifiers None (quoted x ++ b) = x :: scan_identifiers None b.
Proof.
  intros Hx. unfold quoted. rewrite !append_assoc.
  change (dq ++ x ++ dq ++ b) with (String dquote (x ++ String dquote b)).
  cbn [scan_identifiers]. fold dquote. rewrite Ascii.eqb_refl.
  now rewrite (scan_inside "" x b Hx).
Qed.

(** The identifiers of a list of clauses, each an identifier between
    quotes followed by a text without quote. *)
Lemma scan_clauses (sep : string) (items : list (string * string))
    (rest : string) :
  Str.count_char dquote sep = 0 ->
  (forall it, In it items ->
     Str.count_char dquote (fst it) = 0 /\ Str.count_char dquote (snd it) = 0) ->
  scan_identifiers None
    (Str.join sep (map (fun it => quoted (fst it) ++ snd it) items) ++ rest)
  = (map fst items ++ scan_identifiers None rest)%list.
Proof.
  intros Hsep Hitems. unfold Str.join.
  induction items as [|[x tail] items IH]; [reflexivity|].
  destruct (Hitems (x, tail) (or_introl eq_refl)) as [Hx Htail].
  cbn [fst snd] in Hx, Htail.
  assert (IH' := IH (fun it Hit => Hitems it (or_intror Hit))). clear IH.
  destruct items as [|it items].
  - cbn [map String.concat fst snd app]. rewrite append_assoc.
    rewrite (scan_quoted x _ Hx). now rewrite (scan_skip tail rest Htail).
  - change (String.concat sep (map (fun it => quoted (fst it) ++ snd it)
                                   ((x, tail) :: it :: items)))
      with ((quoted x ++ tail) ++ sep
            ++ String.concat sep (map (fun it => quoted (fst it) ++ snd it)
                                      (it :: items))).
    rewrite !append_assoc. rewrite (scan_quoted x _ Hx).
    rewrite (scan_skip tail _ Htail), (scan_skip sep _ Hsep).
    cbn [map fst] in *. rewrite <- app_comm_cons. f_equal. exact IH'.
Qed.



Section Columns.
Context {host : Host}.



Lemma placeholders_plain (a : ascii) (i n : nat) :
  In a special -> a <> ascii_of_nat 36 ->
  Str.count_char a (Str.join ", " (placeholders i n)) = 0.
Proof.
  intros Ha Hd. rewrite count_char_join.
  - revert i. induction n as [|n IH]; intros i; [reflexivity|].
    cbn [placeholders map]. unfold list_sum in *. cbn [fold_right].
    rewrite IH, count_char_app.
    rewrite (count_char_of_nat a _ (special_not_digit a Ha)).
    simpl in Ha. destruct Ha as [<-|[<-|[<-|[<-|[]]]]];
      try (exfalso; now apply Hd); reflexivity.
  - simpl in Ha. destruct Ha as [<-|[<-|[<-|[<-|[]]]]]; reflexivity.
Qed.

(** The identifiers of a list of quoted columns. *)
Lemma scan_columns (m : string) (schema : ModelDescriptor)
    (ks : list string) (tail : string -> string) (sep rest : string) :
  model_of m = Some schema ->
  Str.count_char dquote sep = 0 ->
  (forall k, In k ks -> truthy (Schema.field schema k) = true) ->
  (forall k, Str.count_char dquote (tail k) = 0) ->
  scan_identifiers None
    (Str.join sep (map (fun k => quoted (column_of schema k) ++ tail k) ks)
     ++ rest)
  = (map (column_of schema) ks ++ scan_identifiers None rest)%list.
Proof.
  intros Hm Hsep Hks Htail.
  pose proof (scan_clauses sep
                (map (fun k => (column_of schema k, tail k)) ks) rest Hsep)
    as Hscan.
  rewrite !map_map in Hscan. cbn [fst snd] in Hscan.
  apply Hscan. intros it Hit. apply in_map_iff in Hit as [k [<- Hk]].
  cbn [fst snd]. split; [|apply Htail].
  apply (plain_count _ dquote (known_field_plain m schema k Hm (Hks k Hk))).
  simpl. tauto.
Qed.

End Columns.
End IdentifierFacts.

Module IdentifierProps.
Import Js Schema Sql Notions JsFacts StrFacts SchemaFacts SelectFacts UpdateProps IdentifierFacts.

Section I.
Context {host : Host}.



Lemma dquote_special : In dquote special.
Proof. simpl. tauto. Qed.




Lemma table_plain (a : ascii) (m : string) (schema : ModelDescriptor) :
  model_of m = Some schema -> In a special ->
  Str.count_char a (table schema) = 0.
Proof.
  intros Hm Ha. apply model_plain in Hm. unfold plain_schema in Hm.
  apply andb_true_iff in Hm as [Ht _]. now apply plain_count.
Qed.

Lemma insert_query_shape (t1 t2 : Z) (m : string) (schema : ModelDescriptor)
    (data : value) :
  model_of m = Some schema ->
  buildInsertQuery t1 t2 m data =
  Ok (mkQuery
        (nl ++ "      INSERT INTO " ++ quoted (table schema) ++ " ("
         ++ Str.join ", "
              (map (fun field => quoted (column_of schema field))
                   (insert_fields t1 t2 schema data))
         ++ ")" ++ nl ++ "      VALUES ("
         ++ Str.join ", "
              (placeholders 0 (List.length (insert_fields t1 t2 schema data)))
         ++ ")" ++ nl ++ "      RETURNING *" ++ nl ++ "    ")
        (map (fun field => lookup (enhancedInsertData t1 t2 schema data) field)
             (insert_fields t1 t2 schema data))).
Proof. intros Hm. unfold buildInsertQuery. now rewrite Hm. Qed.







End I.

Import Samples.



End IdentifierProps.

Import Js Schema Sql Client Parser Server Samples.

(* ================================================================== *)
(** ** The methods, statement by statement *)

Module MethodProps.
Import Js Schema Sql Client Notions MethodNotions JsFacts StrFacts SchemaFacts SelectFacts ClientProps UpdateProps IdentifierFacts IdentifierProps.

Section P.
Context {host : Host} {db : Database}.

Lemma insert_query_is_statement (t1 t2 : Z) (m : string)
    (schema : ModelDescriptor) (data : value) :
  model_of m = Some schema ->
  buildInsertQuery t1 t2 m data = Ok (insert_statement t1 t2 schema data).
Proof. intros Hm. now apply insert_query_shape. Qed.

Lemma update_query_is_statement (t : Z) (m : string)
    (schema : ModelDescriptor) (args data f : value) :
  model_of m = Some schema ->
  get args "data" = Ok data ->
  get args "where" = Ok f ->
  buildUpdateQuery t m args = Ok (update_statement t schema data f).
Proof. intros Hm Hd Hw. now apply update_query_shape. Qed.

Lemma client_query_eq (sql : string) (params : list value) (w : world) :
  client_query sql params w
  = (mkWorld (fst (run (connection w) sql params))
             (issued w ++ [mkQuery sql params]),
     snd (run (connection w) sql params)).
Proof.
  unfold client_query. now destruct (run (connection w) sql params).
Qed.

(** What [update] does on a payload with data and a filter. *)
Lemma update_run (t : Z) (m : string) (schema : ModelDescriptor)
    (args data f : value) (w : world) :
  model_of m = Some schema ->
  get args "data" = Ok data ->
  get args "where" = Ok f ->
  let upd := update_statement t schema data f in
  update m t args w =
  match run (connection w) (query upd) (values upd) with
  | (c, Ok r) =>
      (mkWorld c (issued w ++ [upd]),
       match rows r with
       | r0 :: _ => Ok (VObj r0)
       | [] => Throw (Error "Registro não encontrado para atualização")
       end)
  | (c, Throw e) => (mkWorld c (issued w ++ [upd]), Throw e)
  end.
Proof.
  intros Hm Hd Hw upd. unfold update.
  rewrite mbind_eq, lift_eq, (update_query_is_statement t m schema args data f Hm Hd Hw).
  fold upd. rewrite mbind_eq. unfold client_query.
  destruct upd as [sql params] eqn:E. cbn [query values].
  destruct (run (connection w) sql params) as [c [r|e]]; [|reflexivity].
  now destruct (rows r).
Qed.

(** X1. [update] sends its [UPDATE] first and looks at the answer after:
    when the engine answers with no row, the statement has been sent and
    the method raises the error "Registro não encontrado para
    atualização"; with rows, it returns the first one. *)
Theorem update_raises_when_no_row_comes_back (t : Z) (m : string)
    (schema : ModelDescriptor) (args data f : value) (w : world)
    (c : conn) (r : QueryResult) :
  model_of m = Some schema ->
  get args "data" = Ok data ->
  get args "where" = Ok f ->
  let upd := update_statement t schema data f in
  run (connection w) (query upd) (values upd) = (c, Ok r) ->
  update m t args w
  = (mkWorld c (issued w ++ [upd]),
     match rows r with
     | r0 :: _ => Ok (VObj r0)
     | [] => Throw (Error "Registro não encontrado para atualização")
     end).
Proof.
  intros Hm Hd Hw upd Hrun.
  rewrite (update_run t m schema args data f w Hm Hd Hw). fold upd.
  now rewrite Hrun.
Qed.

(** What [create] does on a payload with data. *)
Lemma create_run (t1 t2 : Z) (m : string) (schema : ModelDescriptor)
    (args data : value) (w : world) :
  model_of m = Some schema ->
  get args "data" = Ok data ->
  let ins := insert_statement t1 t2 schema data in
  create m t1 t2 args w =
  match run (connection w) (query ins) (values ins) with
  | (c, Ok r) => (mkWorld c (issued w ++ [ins]), Ok (first_row r))
  | (c, Throw e) => (mkWorld c (issued w ++ [ins]), Throw e)
  end.
Proof.
  intros Hm Hd ins. unfold create.
  rewrite mbind_eq, lift_eq, Hd, mbind_eq, lift_eq.
  rewrite (insert_query_is_statement t1 t2 m schema data Hm). fold ins.
  rewrite mbind_eq. unfold client_query.
  destruct ins as [sql params]. cbn [query values].
  now destruct (run (connection w) sql params) as [c [r|e]].
Qed.

(** X2. [upsert] looks the filter up first. When a row comes back it runs
    [update] with the filter and the [update] data, and no [INSERT] is
    sent; when none comes back it runs [create] on the filter merged
    with the [create] data, and no [UPDATE] is sent. The lookup and the
    statement that follows are two separate statements. *)
Theorem upsert_updates_or_creates (t1 t2 : Z) (m : string)
    (schema : ModelDescriptor) (args f : value) (w : world)
    (c : conn) (found : QueryResult) :
  model_of m = Some schema ->
  get args "where" = Ok f ->
  let sel := lookup_statement schema f in
  run (connection w) (query sel) (values sel) = (c, Ok found) ->
  let w1 := mkWorld c (issued w ++ [sel]) in
  (rows found <> [] ->
   forall upd, get args "update" = Ok upd ->
     upsert m t1 t2 args w
     = update m t2 (VObj [("where", f); ("data", upd)]) w1
     /\ issued (fst (upsert m t1 t2 args w))
        = (issued w ++ [sel; update_statement t2 schema upd f])%list)
  /\ (rows found = [] ->
      forall cre, get args "create" = Ok cre ->
        upsert m t1 t2 args w
        = create m t1 t2 (VObj [("data", VObj (merge f cre))]) w1
        /\ issued (fst (upsert m t1 t2 args w))
           = (issued w
              ++ [sel; insert_statement t1 t2 schema (VObj (merge f cre))])%list).
Proof.
  intros Hm Hw sel Hrun w1.
  assert (E : upsert m t1 t2 args w
              = (if truthy (first_or_null found)
                 then mbind (lift (get args "update"))
                        (fun data => update m t2
                                       (VObj [("where", f); ("data", data)]))
                 else mbind (lift (get args "create"))
                        (fun created =>
                           create m t1 t2
                             (VObj [("data", VObj (merge f created))]))) w1).
  { unfold upsert. rewrite mbind_eq, lift_eq, Hw, mbind_eq.
    rewrite (findUnique_by_where m schema f w Hm).
    change (mkQuery _ (where_values f)) with sel. now rewrite Hrun. }
  split.
  - intros Hrows upd Hupd. rewrite E. unfold first_or_null.
    destruct (rows found) as [|r0 rest]; [contradiction|].
    cbn [truthy]. rewrite mbind_eq, lift_eq, Hupd.
    split; [reflexivity|].
    rewrite (update_run t2 m schema (VObj [("where", f); ("data", upd)])
               upd f w1 Hm eq_refl eq_refl).
    destruct (run (connection w1) _ _) as [c2 [r|e]]; cbn [fst issued];
      unfold w1; cbn [issued]; now rewrite <- app_assoc.
  - intros Hrows cre Hcre. rewrite E. unfold first_or_null. rewrite Hrows.
    cbn [truthy]. rewrite mbind_eq, lift_eq, Hcre.
    split; [reflexivity|].
    rewrite (create_run t1 t2 m schema (VObj [("data", VObj (merge f cre))])
               (VObj (merge f cre)) w1 Hm eq_refl).
    destruct (run (connection w1) _ _) as [c2 [r|e]]; cbn [fst issued];
      unfold w1; cbn [issued]; now rewrite <- app_assoc.
Qed.




(** The query of a bare [SELECT]. *)
Lemma select_without_clauses (m : string) (schema : ModelDescriptor)
    (o : props) :
  model_of m = Some schema ->
  truthy (lookup o "where") = false ->
  truthy (lookup o "orderBy") = false ->
  truthy (lookup o "take") = false ->
  truthy (lookup o "skip") = false ->
  buildSelectQuery m (VObj o)
  = Ok (mkQuery ("SELECT * FROM " ++ quoted (table schema)) []).
Proof.
  intros Hm Hw Ho Ht Hs. unfold buildSelectQuery. cbn [default_empty].
  rewrite Hm. cbn [get bind]. now rewrite Hw, Ho, Ht, Hs.
Qed.

(** X4. [findMany] without argument, or with an object that has no truthy
    [where], [orderBy], [take] and [skip], sends [SELECT * FROM
    "<table>"] with no parameter and returns the rows of the answer, as
    an array in the order of the engine. *)
Theorem findMany_without_clauses (m : string) (schema : ModelDescriptor)
    (args : value) (w : world) :
  model_of m = Some schema ->
  (args = VUndefined
   \/ exists o, args = VObj o
                /\ truthy (lookup o "where") = false
                /\ truthy (lookup o "orderBy") = false
                /\ truthy (lookup o "take") = false
                /\ truthy (lookup o "skip") = false) ->
  let sel := mkQuery ("SELECT * FROM " ++ quoted (table schema)) [] in
  findMany m args w =
  match run (connection w) (query sel) (values sel) with
  | (c, Ok r) => (mkWorld c (issued w ++ [sel]), Ok (VArr (map VObj (rows r))))
  | (c, Throw e) => (mkWorld c (issued w ++ [sel]), Throw e)
  end.
Proof.
  intros Hm Hargs sel.
  assert (E : buildSelectQuery m (default_empty args) = Ok sel).
  { destruct Hargs as [->|[o [-> [Hw [Ho [Ht Hs]]]]]].
    - now apply (select_without_clauses m schema []).
    - now apply select_without_clauses. }
  unfold findMany. rewrite mbind_eq, lift_eq, E.
  rewrite mbind_eq, client_query_eq. cbn [query values sel].
  now destruct (run (connection w) _ _) as [c [r|e]].
Qed.

(** X5. [deleteMany] without argument, or with a payload whose [where] is
    missing or falsy, sends [DELETE FROM "<table>"] with no [WHERE] and
    no parameter, and returns as count the number of affected rows that
    the engine reports for it (0 when it reports none). *)
Theorem deleteMany_without_filter (m : string) (schema : ModelDescriptor)
    (args : value) (w : world) :
  model_of m = Some schema ->
  (args = VUndefined
   \/ exists f, get args "where" = Ok f /\ truthy f = false) ->
  let del := mkQuery ("DELETE FROM " ++ quoted (table schema)) [] in
  Str.includes (query del) " WHERE " = false
  /\ deleteMany m args w =
     match run (connection w) (query del) (values del) with
     | (c, Ok r) =>
         (mkWorld c (issued w ++ [del]),
          Ok (VObj [("count",
                     VNum (Z.of_nat (match rowCount r with
                                     | Some n => n
                                     | None => 0
                                     end)))]))
     | (c, Throw e) => (mkWorld c (issued w ++ [del]), Throw e)
     end.
Proof.
  intros Hm Hargs del. split.
  - destruct (Str.includes (query del) " WHERE ") eqn:Hi; [|reflexivity].
    apply (includes_count (ascii_of_nat 87)) in Hi.
    cbn [query del] in Hi. rewrite !count_char_app in Hi.
    rewrite (count_quoted (ascii_of_nat 87)) in Hi
      by (simpl; tauto || discriminate).
    rewrite (table_plain (ascii_of_nat 87) m schema Hm) in Hi
      by (simpl; tauto).
    simpl in Hi. lia.
  - assert (E : buildDeleteQuery m (default_empty args) = Ok del).
    { assert (Hf : exists f, get (default_empty args) "where" = Ok f
                             /\ truthy f = false).
      { destruct Hargs as [->|[f [Hf Ht]]].
        - now exists VUndefined.
        - exists f. split; [|exact Ht]. destruct args; try exact Hf.
          discriminate Hf. }
      destruct Hf as [f [Hf Ht]].
      rewrite (delete_by_where m schema _ f Hm Hf).
      destruct (where_clause_falsy schema f 1 Ht) as [-> ->].
      unfold del. now rewrite append_nil_r. }
    unfold deleteMany. rewrite mbind_eq, lift_eq, E.
    rewrite mbind_eq, client_query_eq. cbn [query values del].
    now destruct (run (connection w) _ _) as [c [r|e]].
Qed.

(** The query of a [SELECT] depends on four properties of the payload
    only. *)
Lemma select_depends_on_four (m : string) (o o' : props) :
  lookup o "where" = lookup o' "where" ->
  lookup o "orderBy" = lookup o' "orderBy" ->
  lookup o "take" = lookup o' "take" ->
  lookup o "skip" = lookup o' "skip" ->
  buildSelectQuery m (VObj o) = buildSelectQuery m (VObj o').
Proof.
  intros Hw Ho Ht Hs. unfold buildSelectQuery. cbn [default_empty get].
  destruct (model_of m); [|reflexivity].
  cbn [bind]. now rewrite Hw, Ho, Ht, Hs.
Qed.

(** A falsy filter compiles as no filter. *)
Lemma select_falsy_filter (m : string) (f : value) :
  truthy f = false ->
  buildSelectQuery m (VObj [("where", f)]) = buildSelectQuery m (VObj []).
Proof.
  intros Hf. unfold buildSelectQuery. cbn [default_empty get].
  destruct (model_of m); [|reflexivity].
  cbn [bind].
  change (lookup [("where", f)] "where") with f.
  change (lookup [] "where") with VUndefined.
  rewrite Hf. reflexivity.
Qed.

(** X6. [groupBy] groups nothing: it is [findMany] on the filter of the
    payload alone. Whatever else the payload holds ([by], [orderBy],
    [take], [skip], aggregates) is ignored, and the rows that match the
    filter come back as they are. *)
Theorem groupBy_is_findMany_on_the_filter (m : string) (o : props)
    (w : world) :
  groupBy m (VObj o) w
  = findMany m (VObj [("where", lookup o "where")]) w.
Proof.
  unfold groupBy. rewrite mbind_eq, lift_eq. cbn [get].
  destruct (truthy (lookup o "where")) eqn:Hf; [reflexivity|].
  unfold findMany. cbn [default_empty].
  now rewrite (select_falsy_filter m _ Hf).
Qed.

(** Reading the digits of a decimal numeral. *)
Lemma digits_of_uint (d : uint) (a : nat) :
  digits (Some (Z.of_nat a)) (NilEmpty.string_of_uint d)
  = Some (Z.of_nat (Nat.of_uint_acc d a)).
Proof.
  revert a. induction d; intros a;
    cbn [NilEmpty.string_of_uint digits Nat.of_uint_acc];
    [reflexivity|..];
    match goal with
    | |- context [Str.is_digit ?c] => change (Str.is_digit c) with true
    end;
    cbv iota; rewrite <- IHd; do 2 f_equal;
    rewrite ?Nat2Z.inj_succ, Nat.tail_mul_spec, Nat2Z.inj_mul;
    simpl nat_of_ascii; simpl Nat.sub; lia.
Qed.

Lemma to_uint_not_nil (n : nat) : Nat.to_uint n <> Nil.
Proof.
  intros E. pose proof (Unsigned.of_to n) as Hn. rewrite E in Hn.
  cbn in Hn. subst n. discriminate E.
Qed.

(** [parseInt] reads back the decimal text of a natural number. *)
Lemma parseInt_of_nat (n : nat) :
  parseInt (VStr (Str.of_nat n)) = VNum (Z.of_nat n).
Proof.
  pose proof (Unsigned.of_to n) as Hn. pose proof (to_uint_not_nil n) as Hnil.
  unfold Str.of_nat, parseInt. cbn [String_].
  unfold Nat.of_uint in Hn.
  destruct (Nat.to_uint n) as [|d|d|d|d|d|d|d|d|d|d]; [contradiction|..];
    cbn [NilEmpty.string_of_uint Str.trimStart];
    match goal with
    | |- context [Str.is_space ?c] => change (Str.is_space c) with false
    end;
    cbv iota; cbn [digits];
    match goal with
    | |- context [Str.is_digit ?c] => change (Str.is_digit c) with true
    end;
    cbv iota; cbn [Nat.of_uint_acc] in Hn;
    match goal with
    | |- context [digits (Some ?z) _] =>
        change z with (Z.of_nat (Z.to_nat z))
    end;
    rewrite digits_of_uint; subst n; reflexivity.
Qed.

(** X7. [count] hands the column [count] of the first row of the answer to
    [parseInt]: when the engine answers the decimal text of a number [n],
    as PostgreSQL does for [COUNT( * )], the method returns the number
    [n]. *)
Theorem count_reads_the_decimal_answer (m : string)
    (schema : ModelDescriptor) (args f : value) (w : world)
    (c : conn) (r : QueryResult) (r0 : row) (n : nat) :
  model_of m = Some schema ->
  get (default_empty args) "where" = Ok f ->
  let cnt := mkQuery ("SELECT COUNT(*) as count FROM "
                      ++ quoted (table schema) ++ where_clause schema f 1)
                     (where_values f) in
  run (connection w) (query cnt) (values cnt) = (c, Ok r) ->
  hd_error (rows r) = Some r0 ->
  lookup r0 "count" = VStr (Str.of_nat n) ->
  count m args w = (mkWorld c (issued w ++ [cnt]), Ok (VNum (Z.of_nat n))).
Proof.
  intros Hm Hw cnt Hrun Hrow Hcount. unfold count.
  rewrite mbind_eq, lift_eq.
  rewrite (count_by_where m schema (default_empty args) f Hm Hw).
  fold cnt. rewrite mbind_eq, client_query_eq. cbn [query values cnt] in *.
  rewrite Hrun. cbn [fst snd].
  destruct (rows r) as [|r1 rest]; [discriminate Hrow|].
  injection Hrow as ->. unfold ret. now rewrite Hcount, parseInt_of_nat.
Qed.

Lemma assoc_not_in {A} (k : string) (l : list (string * A)) :
  ~ In k (map fst l) -> assoc k l = None.
Proof.
  induction l as [|[k0 v0] l IH]; cbn [assoc map fst In]; [reflexivity|].
  intros Hk. destruct (String.eqb_spec k0 k) as [->|_]; [|apply IH]; tauto.
Qed.

Lemma assoc_fold_set (l o : props) (k : string) :
  NoDup (map fst l) ->
  assoc k (fold_left (fun o kv => set o (fst kv) (snd kv)) l o)
  = match assoc k l with
    | Some v => Some v
    | None => assoc k o
    end.
Proof.
  revert o. induction l as [|[k0 v0] l IH]; intros o Hnd; [reflexivity|].
  cbn [fold_left fst snd assoc map] in *. inversion Hnd as [|? ? Hk0 Hnd'].
  subst. rewrite (IH _ Hnd').
  destruct (String.eqb_spec k0 k) as [->|Hne].
  - rewrite (assoc_not_in k l Hk0). apply assoc_set_same.
  - destruct (assoc k l); [reflexivity|].
    apply assoc_set_other. congruence.
Qed.

(** X8. the record that [upsert] creates is [{ ...where, ...create }]: on a
    key that both have, the value of [create] wins; the other keys of the
    filter are kept. *)
Theorem upsert_create_data_prefers_create (where_ created : value)
    (k : string) :
  NoDup (Object_keys (spread created)) ->
  assoc k (merge where_ created)
  = match assoc k (spread created) with
    | Some v => Some v
    | None => assoc k (spread where_)
    end.
Proof. intros Hnd. unfold merge. now apply assoc_fold_set. Qed.

End P.

Import Samples.


Lemma update_raises_when_no_row_comes_back_witness :
  update (host := utc) (db := table_engine) "tag" 7
    (VObj [("where", VObj [("id", VNum 9)]);
           ("data", VObj [("name", VStr "x")])])
    (mkWorld (db := table_engine) [] [])
  = (mkWorld (db := table_engine) []
       [mkQuery ("UPDATE " ++ quoted "tags" ++ " SET " ++ quoted "name"
                 ++ " = $1 WHERE " ++ quoted "id" ++ " = $2 RETURNING *")
                [VStr "x"; VNum 9]],
     Throw (Error "Registro não encontrado para atualização")).
Proof.
  exact (update_raises_when_no_row_comes_back (host := utc)
           (db := table_engine) 7 "tag" _
           (VObj [("where", VObj [("id", VNum 9)]);
                  ("data", VObj [("name", VStr "x")])])
           (VObj [("name", VStr "x")]) (VObj [("id", VNum 9)])
           (mkWorld (db := table_engine) [] []) [] (mkResult [] (Some 0))
           eq_refl eq_refl eq_refl eq_refl).
Defined.

Lemma upsert_updates_or_creates_witness :
  issued (fst (upsert (host := utc) (db := table_engine) "tag" 1 2
                 (VObj [("where", VObj [("id", VNum 9)]);
                        ("update", VObj [("name", VStr "u")]);
                        ("create", VObj [("name", VStr "c")])])
                 (mkWorld (db := table_engine) [] [])))
  = [ mkQuery ("SELECT * FROM " ++ quoted "tags" ++ " WHERE " ++ quoted "id"
               ++ " = $1 LIMIT 1") [VNum 9];
      mkQuery (nl ++ "      INSERT INTO " ++ quoted "tags" ++ " ("
               ++ quoted "id" ++ ", " ++ quoted "name" ++ ")" ++ nl
               ++ "      VALUES ($1, $2)" ++ nl ++ "      RETURNING *"
               ++ nl ++ "    ")
              [VNum 9; VStr "c"] ].
Proof.
  exact (proj2 (proj2 (upsert_updates_or_creates (host := utc)
                         (db := table_engine) 1 2 "tag" _
                         (VObj [("where", VObj [("id", VNum 9)]);
                                ("update", VObj [("name", VStr "u")]);
                                ("create", VObj [("name", VStr "c")])])
                         (VObj [("id", VNum 9)])
                         (mkWorld (db := table_engine) [] [])
                         [] (mkResult [] (Some 0))
                         eq_refl eq_refl eq_refl)
                  eq_refl (VObj [("name", VStr "c")]) eq_refl)).
Defined.


Lemma findMany_without_clauses_witness :
  findMany (host := utc) (db := table_engine) "user"
    (VObj [("take", VNum 0)]) (mkWorld (db := table_engine) [alice; bob] [])
  = (mkWorld (db := table_engine) [alice; bob]
       [mkQuery ("SELECT * FROM " ++ quoted "users") []],
     Ok (VArr [VObj alice; VObj bob])).
Proof.
  refine (findMany_without_clauses (host := utc) (db := table_engine)
            "user" _ (VObj [("take", VNum 0)])
            (mkWorld (db := table_engine) [alice; bob] []) eq_refl _).
  right. exists [("take", VNum 0)]. repeat split.
Defined.

Lemma deleteMany_without_filter_witness :
  deleteMany (host := utc) (db := table_engine) "user" VUndefined
    (mkWorld (db := table_engine) [alice; bob] [])
  = (mkWorld (db := table_engine) []
       [mkQuery ("DELETE FROM " ++ quoted "users") []],
     Ok (VObj [("count", VNum 2)])).
Proof.
  exact (proj2 (deleteMany_without_filter (host := utc) (db := table_engine)
                  "user" _ VUndefined
                  (mkWorld (db := table_engine) [alice; bob] [])
                  eq_refl (or_introl eq_refl))).
Defined.

Lemma count_reads_the_decimal_answer_witness :
  count (host := utc) (db := table_engine) "user" VUndefined
    (mkWorld (db := table_engine) [alice; bob] [])
  = (mkWorld (db := table_engine) [alice; bob]
       [mkQuery ("SELECT COUNT(*) as count FROM " ++ quoted "users") []],
     Ok (VNum 2)).
Proof.
  exact (count_reads_the_decimal_answer (host := utc) (db := table_engine)
           "user" _ VUndefined VUndefined
           (mkWorld (db := table_engine) [alice; bob] [])
           [alice; bob]
           (mkResult [[("count", VStr "2")]] (Some 1))
           [("count", VStr "2")] 2
           eq_refl eq_refl eq_refl eq_refl eq_refl).
Defined.

Lemma upsert_create_data_prefers_create_witness :
  assoc "name"
    (merge (VObj [("id", VNum 9); ("name", VStr "w")])
           (VObj [("name", VStr "c")]))
  = Some (VStr "c").
Proof.
  refine (upsert_create_data_prefers_create
            (VObj [("id", VNum 9); ("name", VStr "w")])
            (VObj [("name", VStr "c")]) "name" _).
  repeat constructor. simpl. tauto.
Defined.

End MethodProps.

(* ================================================================== *)
(** ** The builders at the edges of their input *)

Module BuilderProps.
Import Js Schema Sql Client Notions MethodNotions BuilderNotions JsFacts StrFacts SchemaFacts SelectFacts ClientProps UpdateProps IdentifierFacts IdentifierProps MethodProps.

Section P.
Context {host : Host}.

(** X9. a [take] or a [skip] that is falsy, 0 among them, is left out of
    the [SELECT]: [take: 0] does not ask for no row, it asks for all of
    them. *)
Theorem falsy_take_and_skip_are_left_out (m : string) (o : props) :
  truthy (lookup o "take") = false ->
  truthy (lookup o "skip") = false ->
  buildSelectQuery m (VObj o)
  = buildSelectQuery m (VObj [("where", lookup o "where");
                              ("orderBy", lookup o "orderBy")]).
Proof.
  intros Ht Hs. unfold buildSelectQuery. cbn [default_empty get].
  destruct (model_of m); [|reflexivity].
  cbn [bind].
  change (lookup [("where", lookup o "where"); ("orderBy", lookup o "orderBy")] "where") with (lookup o "where").
  change (lookup [("where", lookup o "where"); ("orderBy", lookup o "orderBy")] "orderBy") with (lookup o "orderBy").
  change (lookup [("where", lookup o "where"); ("orderBy", lookup o "orderBy")] "take") with VUndefined.
  change (lookup [("where", lookup o "where"); ("orderBy", lookup o "orderBy")] "skip") with VUndefined.
  now rewrite Ht, Hs.
Qed.

(** X10. one order spec and an array that holds that spec alone compile to
    the same [SELECT]. *)
Theorem orderBy_one_spec_or_array_of_one (m : string) (o : props)
    (spec : value) :
  truthy spec = true ->
  order_specs spec = [spec] ->
  buildSelectQuery m (VObj (set o "orderBy" (VArr [spec])))
  = buildSelectQuery m (VObj (set o "orderBy" spec)).
Proof.
  intros Ht Hs. unfold buildSelectQuery. cbn [default_empty get].
  destruct (model_of m); [|reflexivity].
  cbn [bind]. rewrite !lookup_set_same.
  rewrite !(lookup_set_other o "orderBy" "where") by discriminate.
  rewrite !(lookup_set_other o "orderBy" "take") by discriminate.
  rewrite !(lookup_set_other o "orderBy" "skip") by discriminate.
  rewrite Ht. cbn [truthy]. fold (order_specs spec). now rewrite Hs.
Qed.




(** X12. a filter that is truthy and has no property, the empty object
    first of all, is treated in two ways. [buildSelectQuery] leaves the
    [WHERE] out. [buildDeleteQuery], [buildUpdateQuery] and the query of
    [count] write the keyword [WHERE] with no condition after it. *)
Theorem filter_without_property (t : Z) (m : string)
    (schema : ModelDescriptor) (f data : value) :
  model_of m = Some schema ->
  truthy f = true ->
  spread f = [] ->
  buildSelectQuery m (VObj [("where", f)])
  = Ok (mkQuery ("SELECT * FROM " ++ quoted (table schema)) [])
  /\ buildDeleteQuery m (VObj [("where", f)])
     = Ok (mkQuery ("DELETE FROM " ++ quoted (table schema) ++ " WHERE ") [])
  /\ buildCountQuery m (VObj [("where", f)])
     = Ok (mkQuery ("SELECT COUNT(*) as count FROM "
                    ++ quoted (table schema) ++ " WHERE ") [])
  /\ buildUpdateQuery t m (VObj [("where", f); ("data", data)])
     = Ok (mkQuery (update_set t schema data ++ " WHERE  RETURNING *")
                   (set_values t schema data)).
Proof.
  intros Hm Ht Hs.
  assert (Hsel : select_where schema f = "")
    by (unfold select_where; now rewrite Ht, Hs).
  assert (Hcl : forall i, where_clause schema f i = " WHERE ")
    by (intros i; unfold where_clause; now rewrite Ht, Hs).
  assert (Hv : where_values f = [])
    by (unfold where_values; now rewrite Ht, Hs).
  split; [|split; [|split]].
  - rewrite (select_where_only m schema f Hm), Hsel, Hv.
    now rewrite append_nil_r.
  - rewrite (delete_by_where m schema (VObj [("where", f)]) f Hm eq_refl).
    now rewrite Hcl, Hv.
  - rewrite (count_by_where m schema (VObj [("where", f)]) f Hm eq_refl).
    now rewrite Hcl, Hv.
  - rewrite (update_query_shape t m schema
               (VObj [("where", f); ("data", data)]) data f Hm
               eq_refl eq_refl).
    rewrite Hcl, Hv, app_nil_r. reflexivity.
Qed.

Lemma placeholders_count (i n : nat) :
  placeholder_count (Str.join ", " (placeholders i n)) = n.
Proof.
  unfold placeholder_count. rewrite count_char_join by reflexivity.
  revert i. induction n as [|n IH]; intros i; [reflexivity|].
  cbn [placeholders map]. unfold list_sum in *. cbn [fold_right].
  rewrite IH, count_char_app.
  rewrite (count_char_of_nat _ _ (special_not_digit _ PlaceholderProps.dollar_special)).
  reflexivity.
Qed.

Lemma placeholders_numbered (i n : nat) :
  placeholders i n = map (fun j => "$" ++ Str.of_nat j) (seq (S i) n).
Proof.
  revert i. induction n as [|n IH]; intros i; [reflexivity|].
  cbn [placeholders seq map]. now rewrite IH.
Qed.

Lemma columns_count (a : ascii) (m : string) (schema : ModelDescriptor)
    (ks : list string) :
  In a special -> a <> ascii_of_nat 34 ->
  model_of m = Some schema ->
  (forall k, In k ks -> truthy (Schema.field schema k) = true) ->
  Str.count_char a
    (Str.join ", " (map (fun field => quoted (column_of schema field)) ks))
  = 0.
Proof.
  intros Ha Hq Hm Hks. rewrite count_char_join.
  - induction ks as [|k ks IH]; [reflexivity|].
    cbn [map]. unfold list_sum in *. cbn [fold_right].
    rewrite IH by (intros k' Hk'; apply Hks; now right).
    rewrite (count_quoted a _ Ha Hq). unfold column_of.
    now rewrite (plain_count _ a (known_field_plain m schema k Hm
                                    (Hks k (or_introl eq_refl))) Ha).
  - simpl in Ha. destruct Ha as [<-|[<-|[<-|[<-|[]]]]]; reflexivity.
Qed.

(** X13. in every [INSERT] that [buildInsertQuery] builds, the column list,
    the placeholders and the parameters have the same number of
    elements: one per key of the record (timestamps added) that the
    field map resolves, in the order of the keys, with the placeholders
    numbered from 1. *)
Theorem insert_lists_agree (t1 t2 : Z) (m : string)
    (schema : ModelDescriptor) (data : value) :
  model_of m = Some schema ->
  let fields := insert_fields t1 t2 schema data in
  exists q,
    buildInsertQuery t1 t2 m data = Ok q
    /\ values q
       = map (fun field => lookup (enhancedInsertData t1 t2 schema data) field)
             fields
    /\ identifiers (query q) = table schema :: map (column_of schema) fields
    /\ placeholder_count (query q) = List.length fields
    /\ placeholders 0 (List.length fields)
       = map (fun j => "$" ++ Str.of_nat j) (seq 1 (List.length fields)).
Proof.
  intros Hm fields. exists (insert_statement t1 t2 schema data).
  assert (Hknown : forall k, In k fields ->
                     truthy (Schema.field schema k) = true)
    by (intros k; apply known_keys_truthy).
  split; [now apply insert_query_is_statement|].
  split; [reflexivity|]. split; [|split].
  - cbn [query insert_statement]. unfold identifiers. fold fields.
    rewrite scan_skip by reflexivity. rewrite scan_skip by reflexivity.
    rewrite scan_quoted
      by (apply (table_plain dquote m); [exact Hm|apply dquote_special]).
    rewrite scan_skip by reflexivity.
    rewrite (map_ext _ (fun k => quoted (column_of schema k) ++ (fun _ => "") k))
      by (intros k; now rewrite append_nil_r).
    rewrite (scan_columns m) by (exact Hm || reflexivity || exact Hknown).
    rewrite scan_skip by reflexivity. rewrite scan_skip by reflexivity.
    rewrite scan_skip by reflexivity.
    rewrite scan_skip
      by (apply placeholders_plain; [apply dquote_special|discriminate]).
    cbn [scan_identifiers]. now rewrite app_nil_r.
  - cbn [query insert_statement]. fold fields. unfold placeholder_count.
    rewrite !count_char_app.
    rewrite (count_quoted _ _ PlaceholderProps.dollar_special) by discriminate.
    rewrite (table_plain _ m schema Hm PlaceholderProps.dollar_special).
    rewrite (columns_count _ m schema fields PlaceholderProps.dollar_special)
      by (discriminate || exact Hm || exact Hknown).
    fold (placeholder_count (Str.join ", " (placeholders 0 (List.length fields)))).
    rewrite placeholders_count. simpl. lia.
  - apply placeholders_numbered.
Qed.

Lemma own_key_of_truthy (o : props) (k : string) :
  inherited k = false -> truthy (lookup o k) = true -> In k (Object_keys o).
Proof.
  unfold lookup, inherited, Object_keys. intros Hi Ht.
  destruct (assoc k o) as [v|] eqn:E.
  - clear Ht. induction o as [|[k0 v0] o IH]; [discriminate E|].
    cbn [assoc map fst In] in *.
    destruct (String.eqb_spec k0 k); [now left|right; now apply IH].
  - destruct (assoc k Object_prototype); [discriminate Hi|discriminate Ht].
Qed.

Lemma key_after_set (o : props) (k k' : string) (v : value) :
  In k' (Object_keys o) \/ k' = k -> In k' (Object_keys (set o k v)).
Proof.
  unfold Object_keys.
  induction o as [|[k0 v0] o IH]; cbn [set map fst In].
  - intros [[]| ->]. now left.
  - destruct (String.eqb_spec k0 k) as [->|Hne]; cbn [map fst In].
    + intros [[H|H]|H]; auto.
    + intros [[H|H]|H]; auto.
Qed.

Lemma field_of_schema (m : string) (schema : ModelDescriptor) (k : string) :
  model_of m = Some schema ->
  is_field schema k = true ->
  truthy (Schema.field schema k) = true
  /\ has_property (fields_object schema) k = true.
Proof.
  intros Hm Hk. unfold is_field in Hk.
  destruct (assoc k (fields schema)) as [col|] eqn:Ha; [|discriminate Hk].
  unfold Schema.field, lookup, has_property.
  rewrite fields_object_assoc, Ha. cbn [option_map truthy].
  split; [|reflexivity].
  apply model_plain in Hm. unfold plain_schema in Hm.
  apply andb_true_iff in Hm as [_ Hcols]. rewrite forallb_forall in Hcols.
  apply assoc_In in Ha. specialize (Hcols col Ha).
  now apply andb_true_iff in Hcols as [_ Hne].
Qed.

(** X14. for a model that has the fields [createdAt] and [updatedAt],
    [buildInsertQuery] always writes both columns. The parameter of each
    is the value of the record when that value is truthy, and the
    reading of the clock otherwise: a missing value, [null], 0 or the
    empty text are replaced. *)
Theorem insert_fills_the_timestamps (t1 t2 : Z) (m : string)
    (schema : ModelDescriptor) (data : value) :
  model_of m = Some schema ->
  is_field schema "createdAt" = true ->
  is_field schema "updatedAt" = true ->
  let given k := lookup (spread data) k in
  let stamp k now := if truthy (given k) then given k else VDate now in
  exists q,
    buildInsertQuery t1 t2 m data = Ok q
    /\ In ("createdAt", stamp "createdAt" t1)
          (combine (insert_fields t1 t2 schema data) (values q))
    /\ In ("updatedAt", stamp "updatedAt" t2)
          (combine (insert_fields t1 t2 schema data) (values q)).
Proof.
  intros Hm Hc Hu given stamp.
  exists (insert_statement t1 t2 schema data).
  split; [now apply insert_query_is_statement|].
  destruct (field_of_schema m schema "createdAt" Hm Hc) as [Htc Hpc].
  destruct (field_of_schema m schema "updatedAt" Hm Hu) as [Htu Hpu].
  set (e := enhancedInsertData t1 t2 schema data).
  assert (He : (lookup e "createdAt" = stamp "createdAt" t1
                /\ In "createdAt" (Object_keys e))
               /\ (lookup e "updatedAt" = stamp "updatedAt" t2
                   /\ In "updatedAt" (Object_keys e))).
  { unfold e, enhancedInsertData, stamp, given.
    rewrite Hpc, Hpu. cbn [andb]. cbv zeta.
    destruct (truthy (lookup (spread data) "createdAt")) eqn:T1; cbn [negb].
    - destruct (truthy (lookup (spread data) "updatedAt")) eqn:T2; cbn [negb].
      + repeat split; now apply own_key_of_truthy.
      + rewrite lookup_set_same, lookup_set_other by discriminate.
        repeat split; apply key_after_set; [left|now right].
        now apply own_key_of_truthy.
    - rewrite (lookup_set_other (spread data) "createdAt" "updatedAt")
        by discriminate.
      destruct (truthy (lookup (spread data) "updatedAt")) eqn:T2; cbn [negb].
      + rewrite lookup_set_same, lookup_set_other by discriminate.
        repeat split; apply key_after_set; [now right|left].
        now apply own_key_of_truthy.
      + rewrite lookup_set_same, lookup_set_other by discriminate.
        rewrite lookup_set_same.
        repeat split; apply key_after_set; [left|now right].
        apply key_after_set. now right. }
  destruct He as [[Hl1 Hk1] [Hl2 Hk2]].
  cbn [values insert_statement]. fold e.
  assert (Hin : forall k, In k (Object_keys e) ->
                  truthy (Schema.field schema k) = true ->
                  In (k, lookup e k)
                     (combine (insert_fields t1 t2 schema data)
                        (map (fun field => lookup e field)
                             (insert_fields t1 t2 schema data)))).
  { intros k Hk Ht.
    assert (Hf : In k (insert_fields t1 t2 schema data)).
    { unfold insert_fields, known_keys. fold e. apply filter_In. now split. }
    clear -Hf. induction (insert_fields t1 t2 schema data) as [|k0 l IH];
      [contradiction|].
    cbn [map combine In] in *. destruct Hf as [->|Hf]; [now left|right; auto]. }
  split.
  - rewrite <- Hl1. now apply Hin.
  - rewrite <- Hl2. now apply Hin.
Qed.

End P.

Import Samples.

Lemma falsy_take_and_skip_are_left_out_witness :
  buildSelectQuery (host := utc) "user"
    (VObj [("where", VObj [("id", VNum 1)]); ("take", VNum 0);
           ("skip", VNum 0)])
  = Ok (mkQuery ("SELECT * FROM " ++ quoted "users" ++ " WHERE "
                 ++ quoted "id" ++ " = $1") [VNum 1]).
Proof.
  exact (falsy_take_and_skip_are_left_out (host := utc) "user"
           [("where", VObj [("id", VNum 1)]); ("take", VNum 0);
            ("skip", VNum 0)] eq_refl eq_refl).
Defined.

Lemma orderBy_one_spec_or_array_of_one_witness :
  buildSelectQuery (host := utc) "user"
    (VObj [("orderBy", VArr [VObj [("name", VStr "asc")]])])
  = Ok (mkQuery ("SELECT * FROM " ++ quoted "users" ++ " ORDER BY "
                 ++ quoted "name" ++ " ASC") []).
Proof.
  exact (orderBy_one_spec_or_array_of_one (host := utc) "user" []
           (VObj [("name", VStr "asc")]) eq_refl eq_refl).
Defined.


Lemma filter_without_property_witness :
  buildDeleteQuery (host := utc) "user" (VObj [("where", VObj [])])
  = Ok (mkQuery ("DELETE FROM " ++ quoted "users" ++ " WHERE ") []).
Proof.
  exact (proj1 (proj2 (filter_without_property (host := utc) 7 "user" _
                         (VObj []) VUndefined eq_refl eq_refl eq_refl))).
Defined.

Lemma insert_lists_agree_witness :
  exists q,
    buildInsertQuery (host := utc) 1 2 "post"
      (VObj [("title", VStr "Hi"); ("zzz", VNum 0)]) = Ok q
    /\ values q = [VStr "Hi"; VDate 1; VDate 2]
    /\ identifiers (query q) = ["posts"; "title"; "createdAt"; "updatedAt"]
    /\ placeholder_count (query q) = 3
    /\ placeholders 0 3 = ["$1"; "$2"; "$3"].
Proof.
  exact (insert_lists_agree (host := utc) 1 2 "post" _
           (VObj [("title", VStr "Hi"); ("zzz", VNum 0)]) eq_refl).
Defined.

Lemma insert_fills_the_timestamps_witness :
  exists q,
    buildInsertQuery (host := utc) 1 2 "user"
      (VObj [("createdAt", VStr "2020-01-01"); ("updatedAt", VNull)]) = Ok q
    /\ In ("createdAt", VStr "2020-01-01")
          (combine ["createdAt"; "updatedAt"] (values q))
    /\ In ("updatedAt", VDate 2)
          (combine ["createdAt"; "updatedAt"] (values q)).
Proof.
  exact (insert_fills_the_timestamps (host := utc) 1 2 "user" _
           (VObj [("createdAt", VStr "2020-01-01"); ("updatedAt", VNull)])
           eq_refl eq_refl eq_refl).
Defined.

End BuilderProps.

(* ================================================================== *)
(** ** The scans of the parser *)

Module ScanProps.
Import Js Parser Notions ParserNotions ParserProps StrFacts.

Lemma comment_line_is_skipped (line : string) :
  is_comment_line line = true ->
  console_log_of line = None /\ const_of line = None.
Proof.
  unfold is_comment_line, console_log_of, const_of. intros ->. now split.
Qed.

Lemma find_console_log_skips (pre post : list string) (c : string) :
  console_log_of c = None ->
  find_console_log (pre ++ c :: post) = find_console_log (pre ++ post).
Proof.
  intros Hc. induction pre as [|l pre IH]; cbn [List.app find_console_log].
  - now rewrite Hc.
  - now rewrite IH.
Qed.

Lemma find_const_skips (pre post : list string) (c : string) :
  const_of c = None ->
  find_const (pre ++ c :: post) = find_const (pre ++ post).
Proof.
  intros Hc. induction pre as [|l pre IH]; cbn [List.app find_const].
  - now rewrite Hc.
  - now rewrite IH.
Qed.

(** X15. comment lines take no part in the choice of the active binding:
    with a comment line added or removed anywhere in the text, the
    binding found (or the failure to find one) is the same. *)
Theorem comment_lines_do_not_change_the_binding (pre post : list string)
    (c : string) :
  is_comment_line c = true ->
  active_binding (pre ++ c :: post) = active_binding (pre ++ post).
Proof.
  intros Hc. destruct (comment_line_is_skipped c Hc) as [H1 H2].
  unfold active_binding.
  now rewrite (find_console_log_skips pre post c H1),
              (find_const_skips pre post c H2).
Qed.

Lemma comment_lines_do_not_change_the_binding_witness :
  is_comment_line "  // console.log(b)" = true
  /\ active_binding
       (["const a = await prisma.user.findMany()"]
        ++ "  // console.log(b)" :: ["console.log(a)"])%list
     = active_binding
         (["const a = await prisma.user.findMany()"]
          ++ ["console.log(a)"])%list.
Proof.
  split; [reflexivity|].
  apply comment_lines_do_not_change_the_binding. reflexivity.
Defined.


Lemma re_const_nonempty (s v : string) : re_const s = Some v -> v <> "".
Proof.
  unfold re_const.
  destruct (String.prefix "const" s); [|discriminate].
  destruct (span_space (Str.drop 5 s) =? 0)%nat; [discriminate|].
  destruct (Str.span_word (Str.trimStart (Str.drop 5 s))) as [w rest].
  destruct (String.eqb_spec w ""); [discriminate|].
  destruct (String.prefix "=" (Str.trimStart rest)); [|discriminate].
  now intros [= <-].
Qed.

Lemma const_of_nonempty (line v : string) : const_of line = Some v -> v <> "".
Proof.
  unfold const_of.
  destruct (_ && _); [|discriminate].
  destruct (search re_const 0 (Str.trim line)) as [[j a]|] eqn:E;
    [|discriminate].
  simpl. intros [= <-].
  destruct (search_some _ _ _ _ _ E) as [s' Hs'].
  now apply (re_const_nonempty s').
Qed.

Lemma find_const_first (lines : list string) :
  find_const lines = hd "" (const_declarations lines).
Proof.
  induction lines as [|line rest IH]; simpl; [reflexivity|].
  destruct (const_of line); [reflexivity|exact IH].
Qed.

Lemma const_declarations_nonempty (lines : list string) (v : string) :
  In v (const_declarations lines) -> v <> "".
Proof.
  induction lines as [|line rest IH]; simpl; [tauto|].
  destruct (const_of line) as [u|] eqn:E; [|exact IH].
  intros [<-|Hin]; [now apply (const_of_nonempty line)|now apply IH].
Qed.

(** X16. in a text without uncommented [console.log(variable)], the active
    binding is the name of the first uncommented declaration
    [const name = ... await prisma ...]; when there is none either, the
    parser raises "Nenhuma query ativa encontrada...". *)
Theorem without_console_log_the_first_const_is_active
    (lines : list string) :
  console_log_calls lines = [] ->
  active_binding lines
  = match const_declarations lines with
    | v :: _ => Ok v
    | [] => Throw no_active_query
    end.
Proof.
  intros Hc. unfold active_binding.
  rewrite find_console_log_first, Hc. cbn [hd]. cbv zeta.
  change (String.eqb "" "") with true. cbv iota.
  rewrite find_const_first.
  destruct (const_declarations lines) as [|v rest] eqn:E; [reflexivity|].
  cbn [hd].
  assert (Hv : v <> "").
  { apply (const_declarations_nonempty lines). rewrite E. now left. }
  apply String.eqb_neq in Hv. now rewrite Hv.
Qed.

Lemma without_console_log_the_first_const_is_active_witness :
  console_log_calls
    ["const a = await prisma.user.findMany()";
     "const b = await prisma.post.count()"] = []
  /\ active_binding
       ["const a = await prisma.user.findMany()";
        "const b = await prisma.post.count()"] = Ok "a".
Proof.
  split; [reflexivity|].
  exact (without_console_log_the_first_const_is_active
           ["const a = await prisma.user.findMany()";
            "const b = await prisma.post.count()"] eq_refl).
Defined.


(** The loop over the lines once the declaration is found: the lines
    taken are the next ones, and with at most 100 lines already in the
    block the block never gets more than 101. *)
Lemma block_loop_found (v : string) (lines : list string) (st : levels)
    (acc : list string) :
  List.length acc <= 100 ->
  exists k,
    block_loop v lines true st acc = (acc ++ firstn k lines)%list
    /\ List.length acc + k <= 101
    /\ (lines <> [] -> 1 <= k).
Proof.
  revert st acc. induction lines as [|line rest IH]; intros st acc Hacc.
  - exists 0. cbn [block_loop firstn]. rewrite app_nil_r.
    repeat split; [lia|congruence].
  - cbn [block_loop orb].
    assert (Hone : (acc ++ [line] = acc ++ firstn 1 (line :: rest))%list)
      by reflexivity.
    destruct (_ && _).
    + exists 1. rewrite Hone. repeat split; lia.
    + destruct (100 <? List.length (acc ++ [line])%list)%nat eqn:Hcap.
      * exists 1. rewrite Hone. repeat split; lia.
      * apply Nat.ltb_ge in Hcap.
        destruct (IH (scan_line line None st) (acc ++ [line])%list Hcap)
          as [k [Hk [Hb _]]].
        exists (S k). rewrite Hk. cbn [firstn]. rewrite <- app_assoc.
        rewrite length_app in Hb. cbn [List.length] in Hb.
        repeat split; lia.
Qed.

Lemma block_loop_search (v : string) (lines : list string) (st : levels) :
  exists i k,
    block_loop v lines false st [] = firstn k (skipn i lines)
    /\ k <= 101
    /\ (forall l, In l (firstn i lines) -> declares v l = false)
    /\ ((exists l, In l lines /\ declares v l = true) ->
        1 <= k /\ exists l, nth_error lines i = Some l
                            /\ declares v l = true)
    /\ ((forall l, In l lines -> declares v l = false) -> k = 0).
Proof.
  induction lines as [|line rest IH].
  - exists 0, 0. cbn [block_loop firstn skipn In].
    split; [reflexivity|]. split; [lia|]. split; [intros l []|].
    split; [intros [l [[] _]]|reflexivity].
  - destruct (declares v line) eqn:Hd.
    + assert (E : block_loop v (line :: rest) false st []
                  = block_loop v (line :: rest) true st []).
      { cbn [block_loop orb]. unfold declares in Hd. now rewrite Hd. }
      destruct (block_loop_found v (line :: rest) st [] (Nat.le_0_l _))
        as [k [Hk [Hb Hpos]]].
      exists 0, k. rewrite E, Hk. cbn [List.app skipn firstn In].
      cbn [List.length Nat.add] in Hb.
      split; [reflexivity|]. split; [exact Hb|]. split; [intros l []|].
      split.
      * intros _. split; [apply Hpos; discriminate|].
        exists line. now split.
      * intros Hall. rewrite (Hall line (or_introl eq_refl)) in Hd.
        discriminate Hd.
    + destruct IH as [i [k [Hk [Hb [Hpre [Hsome Hnone]]]]]].
      exists (S i), k. cbn [block_loop orb skipn firstn].
      pose proof Hd as Hd'. unfold declares in Hd'. rewrite Hd'.
      split; [exact Hk|]. split; [exact Hb|]. split; [|split].
      * intros l [<-|Hl]; [exact Hd|now apply Hpre].
      * intros [l [[<-|Hl] Hdl]]; [congruence|].
        cbn [nth_error]. apply Hsome. now exists l.
      * intros Hall. apply Hnone. intros l Hl. apply Hall. now right.
Qed.

(** X17. the block of the active binding is a run of consecutive lines of
    the text, at most 101 of them. It starts at the first line on which
    the declaration [const name = await prisma] is found, whether that
    line is a comment or not, and it is empty exactly when no line has
    the declaration. *)
Theorem block_is_a_bounded_run_of_lines (v : string) (lines : list string) :
  exists i k,
    extract_block v lines = firstn k (skipn i lines)
    /\ k <= 101
    /\ (forall l, In l (firstn i lines) -> declares v l = false)
    /\ ((exists l, In l lines /\ declares v l = true) ->
        1 <= k /\ exists l, nth_error lines i = Some l
                            /\ declares v l = true)
    /\ ((forall l, In l lines -> declares v l = false) -> k = 0).
Proof. apply block_loop_search. Qed.

Lemma block_is_a_bounded_run_of_lines_witness :
  exists i k,
    extract_block "b" (Str.split_lines Samples.two_statements)
    = firstn k (skipn i (Str.split_lines Samples.two_statements))
    /\ 1 <= k <= 101.
Proof.
  destruct (block_is_a_bounded_run_of_lines "b"
              (Str.split_lines Samples.two_statements))
    as [i [k [Hk [Hcap [_ [Hstart _]]]]]].
  exists i, k. split; [exact Hk|]. split; [|exact Hcap].
  apply Hstart. exists "const b = await prisma.post.count()".
  split; [|reflexivity]. vm_compute. tauto.
Defined.


Section Evaluation.
Variable eval : props -> string -> result value.

(** X18. when the active binding is declared on no line of the text (a
    [console.log(x)] with no [const x = await prisma...]), the parser
    raises "Query para a variável 'x' não encontrada" and evaluates
    nothing. *)
Theorem undeclared_binding_is_an_error (queryString v : string) :
  active_binding (Str.split_lines queryString) = Ok v ->
  (forall l, In l (Str.split_lines queryString) -> declares v l = false) ->
  parseUserQuery eval queryString
  = Throw (Error ("Query para a variável '" ++ v ++ "' não encontrada")).
Proof.
  intros Hab Hnone. unfold parseUserQuery. rewrite Hab. cbn [bind].
  destruct (block_loop_search v (Str.split_lines queryString)
              (mkLevels 0 0 false None))
    as [i [k [Hk [_ [_ [_ Hzero]]]]]].
  unfold extract_block. rewrite Hk, (Hzero Hnone). reflexivity.
Qed.



Lemma span_word_is_word (s : string) :
  is_word_text (fst (Str.span_word s)) = true.
Proof.
  induction s as [|c s IH]; [reflexivity|].
  cbn [Str.span_word]. destruct (Str.is_word c) eqn:Hc; [|reflexivity].
  destruct (Str.span_word s) as [w r]. cbn [fst is_word_text] in *.
  now rewrite Hc, IH.
Qed.

Lemma re_method_words (s model action : string) (n : nat) :
  re_method s = Some (model, action, n) ->
  (is_word_text model = true /\ model <> "")
  /\ (is_word_text action = true /\ action <> "").
Proof.
  unfold re_method.
  destruct (String.prefix "await" s); [|discriminate].
  destruct (span_space (Str.drop 5 s) =? 0)%nat; [discriminate|].
  destruct (String.prefix "prisma." _); [|discriminate].
  pose proof (span_word_is_word
                (Str.drop 7 (Str.trimStart (Str.drop 5 s)))) as Hm.
  destruct (Str.span_word (Str.drop 7 (Str.trimStart (Str.drop 5 s))))
    as [mo r1].
  destruct (String.eqb_spec mo ""); [discriminate|].
  destruct (String.prefix "." r1); [|discriminate].
  pose proof (span_word_is_word (Str.drop 1 r1)) as Ha.
  destruct (Str.span_word (Str.drop 1 r1)) as [ac r2].
  destruct (String.eqb_spec ac ""); [discriminate|].
  destruct (String.prefix "(" (Str.trimStart r2)); [|discriminate].
  intros [= <- <- _]. cbn [fst] in *. tauto.
Qed.

(** X19. the model and the action that the parser returns are never empty
    and are made of letters, digits and underscores only. The functions
    of the client whose names start with a dollar sign ([$queryRaw],
    [$queryRawUnsafe], [$disconnect]) can therefore not be named by a
    pasted text. *)
Theorem parsed_names_are_words (queryString : string) (p : ParsedQuery) :
  parseUserQuery eval queryString = Ok p ->
  (is_word_text (model p) = true /\ model p <> "")
  /\ (is_word_text (action p) = true /\ action p <> "")
  /\ ~ In (model p) ["$queryRaw"; "$queryRawUnsafe"; "$disconnect"].
Proof.
  unfold parseUserQuery.
  destruct (active_binding (Str.split_lines queryString)) as [v|e];
    [|discriminate].
  cbn [bind].
  destruct (extract_block v (Str.split_lines queryString)) as [|b bs];
    [discriminate|].
  destruct (search re_method 0 (Str.join Sql.nl (b :: bs)))
    as [[i [[mo ac] n]]|] eqn:E; [|discriminate].
  intros [= <-]. cbn [model action].
  destruct (search_some _ _ _ _ _ E) as [s' Hs'].
  destruct (re_method_words s' mo ac n Hs') as [[Hm1 Hm2] Ha].
  split; [now split|]. split; [exact Ha|].
  intros [<-|[<-|[<-|[]]]]; discriminate Hm1.
Qed.
End Evaluation.

Lemma undeclared_binding_is_an_error_witness :
  parseUserQuery eval_name "console.log(x)"
  = Throw (Error "Query para a variável 'x' não encontrada").
Proof.
  apply (undeclared_binding_is_an_error eval_name "console.log(x)" "x");
    [reflexivity|].
  intros l [<-|[]]. reflexivity.
Defined.

Lemma parsed_names_are_words_witness :
  parseUserQuery eval_name Samples.two_statements
  = Ok (mkParsed "user" "findMany" VUndefined)
  /\ (is_word_text "user" = true /\ "user" <> "")
  /\ (is_word_text "findMany" = true /\ "findMany" <> "")
  /\ ~ In "user" ["$queryRaw"; "$queryRawUnsafe"; "$disconnect"].
Proof.
  split; [reflexivity|].
  exact (parsed_names_are_words eval_name Samples.two_statements
           (mkParsed "user" "findMany" VUndefined) eq_refl).
Defined.


Lemma prefix_two_slashes (c : ascii) (r : string) :
  String.prefix "//" (String c r)
  = Ascii.eqb c "/" && String.prefix "/" r.
Proof.
  cbn [String.prefix].
  destruct (Ascii.ascii_dec "/" c) as [<-|Hne]; [reflexivity|].
  destruct (Ascii.eqb_spec c "/"); [congruence|reflexivity].
Qed.

Lemma prefix_slash (r : string) :
  String.prefix "/" r
  = match r with String d _ => Ascii.eqb d "/" | EmptyString => false end.
Proof.
  destruct r as [|d r]; [reflexivity|]. cbn [String.prefix].
  destruct (Ascii.ascii_dec "/" d) as [<-|Hne]; [now destruct r|].
  destruct (Ascii.eqb_spec d "/"); [congruence|reflexivity].
Qed.

(** Outside a comment, the text after the cut starts with a slash only
    where the text did. *)
Lemma strip_line_comments_head (s : string) :
  String.prefix "/" s = false ->
  String.prefix "/" (strip_line_comments false s) = false.
Proof.
  rewrite !prefix_slash. destruct s as [|c s]; [reflexivity|].
  intros Hc. cbn [strip_line_comments]. rewrite prefix_two_slashes, Hc.
  cbn [andb]. exact Hc.
Qed.

Lemma strip_line_comments_no_slashes (inComment : bool) (s : string) :
  Str.includes (strip_line_comments inComment s) "//" = false.
Proof.
  revert inComment. induction s as [|c s IH]; intros inComment;
    [now destruct inComment|].
  cbn [strip_line_comments]. destruct inComment.
  - destruct (Str.is_line_terminator c) eqn:Hc; [|apply IH].
    cbn [Str.includes]. rewrite IH, prefix_two_slashes.
    assert (Hs : Ascii.eqb c "/" = false).
    { destruct (Ascii.eqb_spec c "/") as [->|]; [discriminate Hc|reflexivity]. }
    now rewrite Hs.
  - rewrite prefix_two_slashes.
    destruct (Ascii.eqb c "/" && String.prefix "/" s) eqn:Hp; [apply IH|].
    cbn [Str.includes]. rewrite IH, prefix_two_slashes, orb_false_r.
    destruct (Ascii.eqb c "/"); [|reflexivity]. cbn [andb] in *.
    now apply strip_line_comments_head.
Qed.

Lemma strip_line_comments_keeps_terminators (a : ascii) (inComment : bool)
    (s : string) :
  Str.is_line_terminator a = true ->
  Str.count_char a (strip_line_comments inComment s) = Str.count_char a s.
Proof.
  intros Ha. revert inComment. induction s as [|c s IH]; intros inComment;
    [now destruct inComment|].
  cbn [strip_line_comments Str.count_char]. destruct inComment.
  - destruct (Str.is_line_terminator c) eqn:Hc.
    + cbn [Str.count_char]. now rewrite IH.
    + rewrite IH. destruct (Ascii.eqb_spec c a) as [->|]; [congruence|].
      reflexivity.
  - rewrite prefix_two_slashes.
    destruct (Ascii.eqb c "/" && String.prefix "/" s) eqn:Hp.
    + rewrite IH. apply andb_true_iff in Hp as [Hp _].
      apply Ascii.eqb_eq in Hp. subst c.
      destruct (Ascii.eqb_spec "/" a) as [<-|]; [discriminate Ha|].
      reflexivity.
    + cbn [Str.count_char]. now rewrite IH.
Qed.

(** X20. the removal of the line comments of a payload leaves no pair of
    slashes in the text and keeps every line terminator: each line is cut
    at its first [//], inside a quoted text as well (a URL loses what
    follows its [//]), and the number of lines is unchanged. *)
Theorem line_comments_are_cut (s : string) :
  Str.includes (strip_line_comments false s) "//" = false
  /\ (forall a, Str.is_line_terminator a = true ->
        Str.count_char a (strip_line_comments false s) = Str.count_char a s).
Proof.
  split; [apply strip_line_comments_no_slashes|].
  intros a Ha. now apply strip_line_comments_keeps_terminators.
Qed.

Lemma line_comments_are_cut_witness :
  Str.count_char "010"%char
    (strip_line_comments false
       ("{ url: 'http://x.org', // home" ++ Sql.nl ++ "}"))
  = 1.
Proof.
  rewrite (proj2 (line_comments_are_cut
                    ("{ url: 'http://x.org', // home" ++ Sql.nl ++ "}")));
    reflexivity.
Defined.


(** X21. the parenthesis that closes the call, when the loop finds one, is
    a closing parenthesis of the block at or after the position where
    the loop started. *)
Theorem find_close_finds_a_parenthesis (s : string) (i : nat)
    (prevChar : option ascii) (parenCounter : Z)
    (st : bool * option ascii) (j : nat) :
  find_close s i prevChar parenCounter st = Some j ->
  i <= j < i + String.length s
  /\ String.get (j - i) s = Some ")"%char.
Proof.
  revert i prevChar parenCounter st.
  induction s as [|c s IH]; intros i prevChar parenCounter st;
    [discriminate|].
  cbn [find_close String.length].
  assert (Hrec : forall cnt st',
            find_close s (S i) (Some c) cnt st' = Some j ->
            i <= j < i + S (String.length s)
            /\ String.get (j - i) (String c s) = Some ")"%char).
  { intros cnt st' H. destruct (IH _ _ _ _ H) as [Hb Hg].
    split; [lia|].
    replace (j - i) with (S (j - S i)) by lia. exact Hg. }
  destruct (negb (fst (quote_step prevChar c st))); [|apply Hrec].
  destruct (is_char "(" c); [apply Hrec|].
  destruct (is_char ")" c) eqn:Hc; [|apply Hrec].
  destruct (Z.eqb (parenCounter - 1) 0); [|apply Hrec].
  intros [= <-]. split; [lia|].
  rewrite Nat.sub_diag. cbn [String.get].
  unfold is_char in Hc. apply Ascii.eqb_eq in Hc. now subst c.
Qed.

Lemma find_close_finds_a_parenthesis_witness :
  4 <= 15 < 4 + String.length "({ n: ')' }) x"
  /\ String.get (15 - 4) "({ n: ')' }) x" = Some ")"%char.
Proof.
  apply (find_close_finds_a_parenthesis "({ n: ')' }) x" 4 None 0%Z
           (false, None)).
  reflexivity.
Defined.

End ScanProps.

(* ================================================================== *)
(** ** The handler and the connection *)

Module ServerProps.
Import Js Schema Sql Client Parser Server Notions ParserNotions
       ServerNotions ClientProps MethodProps.

Section P.
Context {host : Host} {db : Database} {driver : Driver} {builtins : Builtins}.
Variable eval : props -> string -> result value.
Variable times : nat -> Z * Z.

Lemma adds_weaken {A} (n n' : nat) (m : M A) :
  n <= n' -> adds n m -> adds n' m.
Proof.
  intros Hn Hm w. destruct (Hm w) as [l [E Hl]]. exists l. split; [exact E|lia].
Qed.

Lemma adds_lift {A} (r : result A) : adds 0 (lift r).
Proof. intros w. exists []. now rewrite app_nil_r. Qed.

Lemma adds_ret {A} (a : A) : adds 0 (ret a).
Proof. intros w. exists []. now rewrite app_nil_r. Qed.

Lemma adds_throw {A} (e : exn) : adds 0 (throw (A := A) e).
Proof. intros w. exists []. now rewrite app_nil_r. Qed.

Lemma adds_client_query (sql : string) (params : list value) :
  adds 1 (client_query sql params).
Proof.
  intros w. exists [mkQuery sql params]. unfold client_query.
  destruct (run (connection w) sql params). split; [reflexivity|cbn; lia].
Qed.

Lemma adds_mbind {A B} (n k : nat) (m : M A) (f : A -> M B) :
  adds n m -> (forall a, adds k (f a)) -> adds (n + k) (mbind m f).
Proof.
  intros Hm Hf w. rewrite mbind_eq. destruct (Hm w) as [l [E Hl]].
  destruct (m w) as [w' [a|e]]; cbn [fst] in *.
  - destruct (Hf a w') as [l' [E' Hl']]. exists (l ++ l')%list.
    rewrite E', E, app_assoc, length_app. split; [reflexivity|lia].
  - exists l. split; [exact E|lia].
Qed.

(** A pure step in front of a computation. *)
Lemma adds_after {A B} (k : nat) (r : result A) (f : A -> M B) :
  (forall a, adds k (f a)) -> adds k (mbind (lift r) f).
Proof. intros Hf. apply (adds_mbind 0 k); [apply adds_lift|exact Hf]. Qed.

(** A statement, then a computation that sends none. *)
Lemma adds_one {B} (sql : string) (params : list value)
    (f : QueryResult -> M B) :
  (forall a, adds 0 (f a)) -> adds 1 (mbind (client_query sql params) f).
Proof.
  intros Hf. apply (adds_mbind 1 0); [apply adds_client_query|exact Hf].
Qed.

Lemma adds_findMany (m : string) (args : value) : adds 1 (findMany m args).
Proof.
  unfold findMany. apply adds_after. intros q. apply adds_one.
  intros r. apply adds_ret.
Qed.

Lemma adds_findUnique (m : string) (args : value) :
  adds 1 (findUnique m args).
Proof.
  unfold findUnique. apply adds_after. intros q. apply adds_one.
  intros r. apply adds_ret.
Qed.

Lemma adds_findFirst (m : string) (args : value) : adds 1 (findFirst m args).
Proof.
  unfold findFirst. apply adds_after. intros q. apply adds_one.
  intros r. apply adds_ret.
Qed.

Lemma adds_create (m : string) (t1 t2 : Z) (args : value) :
  adds 1 (create m t1 t2 args).
Proof.
  unfold create. apply adds_after. intros d. apply adds_after. intros q.
  apply adds_one. intros r. apply adds_ret.
Qed.

Lemma adds_update (m : string) (t : Z) (args : value) :
  adds 1 (update m t args).
Proof.
  unfold update. apply adds_after. intros q. apply adds_one. intros r.
  destruct (rows r); [apply adds_throw|apply adds_ret].
Qed.

Lemma adds_updateMany (m : string) (t : Z) (args : value) :
  adds 1 (updateMany m t args).
Proof.
  unfold updateMany. apply adds_after. intros q. apply adds_one.
  intros r. apply adds_ret.
Qed.

Lemma adds_upsert (m : string) (t1 t2 : Z) (args : value) :
  adds 2 (upsert m t1 t2 args).
Proof.
  unfold upsert. apply adds_after. intros f.
  apply (adds_mbind 1 1); [apply adds_findUnique|]. intros existing.
  destruct (truthy existing); apply adds_after; intros d;
    [apply adds_update|apply adds_create].
Qed.

Lemma adds_delete (m : string) (args : value) : adds 2 (delete m args).
Proof.
  unfold delete. apply adds_after. intros f.
  apply (adds_mbind 1 1); [apply adds_findUnique|]. intros existing.
  destruct (negb (truthy existing));
    [apply (adds_weaken 0); [lia|apply adds_throw]|].
  apply adds_after. intros q. apply adds_one. intros r. apply adds_ret.
Qed.

Lemma adds_deleteMany (m : string) (args : value) :
  adds 1 (deleteMany m args).
Proof.
  unfold deleteMany. apply adds_after. intros q. apply adds_one.
  intros r. apply adds_ret.
Qed.

Lemma adds_count (m : string) (args : value) : adds 1 (count m args).
Proof.
  unfold count. apply adds_after. intros q. apply adds_one. intros r.
  destruct (rows r); [apply adds_throw|apply adds_ret].
Qed.

Lemma adds_aggregate (m : string) (args : value) :
  adds 1 (aggregate m args).
Proof.
  unfold aggregate. apply adds_after. intros f.
  apply (adds_mbind 1 0); [apply adds_count|]. intros c. apply adds_ret.
Qed.

Lemma adds_groupBy (m : string) (args : value) : adds 1 (groupBy m args).
Proof.
  unfold groupBy. apply adds_after. intros f. apply adds_findMany.
Qed.

Lemma adds_createMany_loop (m : string) (records : list value) (n : nat) :
  adds (List.length records) (createMany_loop m times records n).
Proof.
  revert n. induction records as [|d rest IH]; intros n;
    cbn [createMany_loop List.length]; [apply adds_ret|].
  apply adds_after. intros q.
  apply (adds_mbind 1 (List.length rest)); [apply adds_client_query|].
  intros _. apply IH.
Qed.

Lemma createMany_grows (m : string) (args : value) (w : world) :
  exists l, issued (fst (createMany m times args w)) = (issued w ++ l)%list.
Proof.
  unfold createMany. rewrite mbind_eq, lift_eq.
  destruct (get args "data") as [d|e];
    [|exists []; now rewrite app_nil_r].
  rewrite mbind_eq, lift_eq.
  destruct (iterate d) as [records|e];
    [|exists []; now rewrite app_nil_r].
  destruct (adds_createMany_loop m records 0 w) as [l [E _]]. now exists l.
Qed.

(** One call of a method: statements are added, two at most unless the
    method is [createMany]. *)
Lemma call_method_grows (m a : string) (payload : value) (w : world) :
  exists l,
    issued (fst (call_method times m a payload w)) = (issued w ++ l)%list
    /\ (a <> "createMany" -> List.length l <= 2).
Proof.
  assert (Hadd : forall n (c : M value),
            adds n c -> n <= 2 ->
            exists l, issued (fst (c w)) = (issued w ++ l)%list
                      /\ (a <> "createMany" -> List.length l <= 2)).
  { intros n c Hc Hn. destruct (Hc w) as [l [E Hl]]. exists l.
    split; [exact E|]. intros _. lia. }
  unfold call_method.
  destruct (String.eqb a "findMany");
    [apply (Hadd 1); [apply adds_findMany|lia]|].
  destruct (String.eqb a "findUnique");
    [apply (Hadd 1); [apply adds_findUnique|lia]|].
  destruct (String.eqb a "findFirst");
    [apply (Hadd 1); [apply adds_findFirst|lia]|].
  destruct (String.eqb a "create");
    [apply (Hadd 1); [apply adds_create|lia]|].
  destruct (String.eqb_spec a "createMany") as [->|_].
  { destruct (createMany_grows m payload w) as [l E]. exists l.
    split; [exact E|]. intros H. now elim H. }
  destruct (String.eqb a "update");
    [apply (Hadd 1); [apply adds_update|lia]|].
  destruct (String.eqb a "updateMany");
    [apply (Hadd 1); [apply adds_updateMany|lia]|].
  destruct (String.eqb a "upsert");
    [apply (Hadd 2); [apply adds_upsert|lia]|].
  destruct (String.eqb a "delete");
    [apply (Hadd 2); [apply adds_delete|lia]|].
  destruct (String.eqb a "deleteMany");
    [apply (Hadd 1); [apply adds_deleteMany|lia]|].
  destruct (String.eqb a "count");
    [apply (Hadd 1); [apply adds_count|lia]|].
  destruct (String.eqb a "aggregate");
    [apply (Hadd 1); [apply adds_aggregate|lia]|].
  destruct (String.eqb a "groupBy");
    [apply (Hadd 1); [apply adds_groupBy|lia]|].
  apply (Hadd 0); [apply adds_throw|lia].
Qed.

Lemma dispatch_grows (m a : string) (payload : value) (w : world) :
  exists l,
    issued (fst (dispatch times m a payload w)) = (issued w ++ l)%list
    /\ (a <> "createMany" -> List.length l <= 2).
Proof.
  assert (Hnone : forall r : result value,
            exists l, issued (fst (lift r w)) = (issued w ++ l)%list
                      /\ (a <> "createMany" -> List.length l <= 2)).
  { intros r. exists []. rewrite app_nil_r. split; [reflexivity|].
    intros _. cbn. lia. }
  unfold dispatch.
  destruct (member m client_models); [apply call_method_grows|].
  destruct (member m client_functions); [apply (Hnone (Throw TypeError))|].
  destruct (String.eqb m "constructor"); [apply Hnone|].
  destruct (inherited m); apply (Hnone (Throw _)).
Qed.

(** What the creation of the client leaves on the connection. *)
Lemma created_world (sid : string) (w : world) :
  createVirtualPrismaClient sid = Created w ->
  issued w = [mkQuery (search_path_statement sid) []].
Proof.
  unfold createVirtualPrismaClient. destruct connect as [c|e]; [|discriminate].
  rewrite client_query_eq. cbn [issued connection List.app].
  destruct (snd (run c (search_path_statement sid) []));
    [|discriminate].
  now intros [= <-].
Qed.

Lemma setup_rejected_world (sid : string) (w : world) (e : exn) :
  createVirtualPrismaClient sid = SetupRejected w e ->
  issued w = [mkQuery (search_path_statement sid) []].
Proof.
  unfold createVirtualPrismaClient. destruct connect as [c|e']; [|discriminate].
  rewrite client_query_eq. cbn [issued connection List.app].
  destruct (snd (run c (search_path_statement sid) []));
    [discriminate|].
  now intros [= <- _].
Qed.

Lemma member_In (x : string) (l : list string) :
  member x l = true <-> In x l.
Proof.
  unfold member. rewrite existsb_exists. split.
  - intros [y [Hy E]]. apply String.eqb_eq in E. now subst y.
  - intros H. exists x. split; [exact H|apply String.eqb_refl].
Qed.

(** X22. the handler answers with one of four statuses, and the status is
    200 exactly when the body carries a result; a request answered with
    200 had its connection closed. *)
Theorem response_status_and_body (req : Request) :
  In (status (response (handler eval times req))) [200; 400; 405; 500]
  /\ (status (response (handler eval times req)) = 200
      <-> exists r, body (response (handler eval times req)) = Success r)
  /\ (status (response (handler eval times req)) = 200 ->
      disconnected (handler eval times req) = true).
Proof.
  unfold handler.
  destruct (negb (String.eqb (method req) "POST")).
  { cbn. split; [tauto|]. split; [|discriminate].
    split; [discriminate|]. intros [r H]. discriminate H. }
  destruct (String.eqb (sessionId req) "" || String.eqb (query_text req) "").
  { cbn. split; [tauto|]. split; [|discriminate].
    split; [discriminate|]. intros [r H]. discriminate H. }
  destruct (parseUserQuery eval (query_text req)) as [parsed|e].
  2:{ cbn. split; [tauto|]. split; [|discriminate].
      split; [discriminate|]. intros [r H]. discriminate H. }
  destruct (negb (member (action parsed) ALLOWED_ACTIONS)).
  { cbn. split; [tauto|]. split; [|discriminate].
    split; [discriminate|]. intros [r H]. discriminate H. }
  destruct (createVirtualPrismaClient (sessionId req)) as [e|w e|w].
  1,2: cbn; (split; [tauto|]); (split; [|discriminate]);
       (split; [discriminate|]); intros [r H]; discriminate H.
  destruct (dispatch times (model parsed) (action parsed) (payload parsed) w)
    as [w' [r|e]]; cbn.
  - split; [tauto|]. split; [|reflexivity].
    split; [intros _; now exists r|reflexivity].
  - split; [tauto|]. split; [|discriminate].
    split; [discriminate|]. intros [r H]. discriminate H.
Qed.


(** X24. on every connection that the handler opens, the first statement
    sets the search path to the session identifier, written between
    double quotes in the text of the statement, then [public]; it has no
    parameter. The statements of the method follow it, two at most
    unless the action is [createMany]. *)
Theorem session_starts_with_the_search_path (req : Request) (w : world) :
  session (handler eval times req) = Some w ->
  exists l,
    issued w = mkQuery ("SET search_path TO " ++ quoted (sessionId req)
                        ++ ", public") [] :: l
    /\ (forall parsed,
          parseUserQuery eval (query_text req) = Ok parsed ->
          action parsed <> "createMany" -> List.length l <= 2).
Proof.
  unfold handler.
  destruct (negb (String.eqb (method req) "POST")); [discriminate|].
  destruct (String.eqb (sessionId req) "" || String.eqb (query_text req) "");
    [discriminate|].
  destruct (parseUserQuery eval (query_text req)) as [parsed|e];
    [|discriminate].
  destruct (negb (member (action parsed) ALLOWED_ACTIONS)); [discriminate|].
  destruct (createVirtualPrismaClient (sessionId req)) as [e|w0 e|w0] eqn:Hc;
    [discriminate| |].
  - intros [= <-]. exists []. split.
    + exact (setup_rejected_world _ _ _ Hc).
    + intros _ _ _. cbn. lia.
  - destruct (dispatch_grows (model parsed) (action parsed) (payload parsed)
                w0) as [l [E Hl]].
    destruct (dispatch times (model parsed) (action parsed) (payload parsed)
                w0) as [w' r]. cbn [fst] in E.
    rewrite (created_world _ _ Hc) in E.
    assert (Hw : issued w'
                 = mkQuery (search_path_statement (sessionId req)) [] :: l)
      by exact E.
    destruct r as [r|e]; intros [= <-]; exists l;
      (split; [exact Hw|]); intros p [= <-]; exact Hl.
Qed.

Lemma parse_empty : parseUserQuery eval "" = Throw no_active_query.
Proof. reflexivity. Qed.

(** X25. when the server rejects the statement that sets the search path,
    the handler answers 500 with that error and the connection, which is
    open, is not closed: [$disconnect] is called on a client only, and
    none was returned. *)
Theorem rejected_search_path_leaves_the_connection_open
    (req : Request) (parsed : ParsedQuery) (c c' : conn) (e : exn) :
  method req = "POST" ->
  sessionId req <> "" ->
  parseUserQuery eval (query_text req) = Ok parsed ->
  In (action parsed) ALLOWED_ACTIONS ->
  connect = Ok c ->
  run c (search_path_statement (sessionId req)) [] = (c', Throw e) ->
  handler eval times req
  = mkOutcome (mkResponse 500 (Failure e))
      (Some (mkWorld c' [mkQuery (search_path_statement (sessionId req)) []]))
      false.
Proof.
  intros Hm Hs Hp Ha Hc Hr. unfold handler. rewrite Hm. cbn [String.eqb negb].
  change (String.eqb "POST" "POST") with true. cbn [negb].
  destruct (String.eqb_spec (sessionId req) "") as [|_]; [contradiction|].
  cbn [orb].
  destruct (String.eqb_spec (query_text req) "") as [Hq|_].
  { rewrite Hq, parse_empty in Hp. discriminate Hp. }
  rewrite Hp. apply member_In in Ha. rewrite Ha. cbn [negb].
  unfold createVirtualPrismaClient. rewrite Hc, client_query_eq.
  cbn [connection issued List.app]. now rewrite Hr.
Qed.

Lemma word_not_client_function (m : string) :
  is_word_text m = true -> member m client_functions = false.
Proof.
  intros Hw. destruct (member m client_functions) eqn:E; [|reflexivity].
  apply member_In in E. destruct E as [<-|[<-|[<-|[]]]]; discriminate Hw.
Qed.

Lemma parsed_model_is_word (queryString : string) (p : ParsedQuery) :
  parseUserQuery eval queryString = Ok p -> is_word_text (model p) = true.
Proof.
  unfold parseUserQuery.
  destruct (active_binding (Str.split_lines queryString)) as [v|e];
    [|discriminate].
  cbn [bind].
  destruct (extract_block v (Str.split_lines queryString)) as [|b bs];
    [discriminate|].
  destruct (search re_method 0 (Str.join Sql.nl (b :: bs)))
    as [[i [[mo ac] n]]|] eqn:E; [|discriminate].
  intros [= <-]. cbn [model].
  destruct (ParserProps.search_some _ _ _ _ _ E) as [s' Hs'].
  now destruct (ScanProps.re_method_words s' mo ac n Hs') as [[Hm1 _] _].
Qed.

(** X26. a model name that is none of the seven is found out only after
    the connection is open and the search path is set; no other
    statement is sent and the connection is closed. The answer is the
    error "Modelo ... não encontrado" only for a name that plain objects
    do not inherit: an inherited name passes the check, [toString] and
    the like fail as a call of something that is no function, and
    [constructor] hands the payload to the function of that name of
    [Object]. *)
Theorem names_outside_the_models
    (req : Request) (parsed : ParsedQuery) (w : world) :
  method req = "POST" ->
  sessionId req <> "" ->
  parseUserQuery eval (query_text req) = Ok parsed ->
  In (action parsed) ALLOWED_ACTIONS ->
  createVirtualPrismaClient (sessionId req) = Created w ->
  ~ In (model parsed) client_models ->
  session (handler eval times req) = Some w
  /\ disconnected (handler eval times req) = true
  /\ (inherited (model parsed) = false ->
      response (handler eval times req)
      = mkResponse 500 (Failure (unknown_model (model parsed))))
  /\ (inherited (model parsed) = true -> model parsed <> "constructor" ->
      response (handler eval times req)
      = mkResponse 500 (Failure TypeError))
  /\ (model parsed = "constructor" ->
      response (handler eval times req)
      = match Object_static (action parsed) (payload parsed) with
        | Ok r => mkResponse 200 (Success r)
        | Throw e => mkResponse 500 (Failure e)
        end).
Proof.
  intros Hm Hs Hp Ha Hc Hmodel. unfold handler. rewrite Hm.
  change (String.eqb "POST" "POST") with true. cbn [negb].
  destruct (String.eqb_spec (sessionId req) "") as [|_]; [contradiction|].
  cbn [orb].
  destruct (String.eqb_spec (query_text req) "") as [Hq|_].
  { rewrite Hq, parse_empty in Hp. discriminate Hp. }
  rewrite Hp. apply member_In in Ha. rewrite Ha. cbn [negb]. rewrite Hc.
  unfold dispatch.
  destruct (member (model parsed) client_models) eqn:E.
  { apply member_In in E. contradiction. }
  rewrite (word_not_client_function _ (parsed_model_is_word _ _ Hp)).
  destruct (String.eqb_spec (model parsed) "constructor") as [Hk|Hk].
  - rewrite lift_eq.
    destruct (Object_static (action parsed) (payload parsed)) as [r|e];
      cbn [session disconnected response].
    all: split; [reflexivity|]; split; [reflexivity|].
    all: split; [rewrite Hk; discriminate|].
    all: split; [intros _ H; contradiction|reflexivity].
  - destruct (inherited (model parsed)) eqn:Hi;
      cbn [throw session disconnected response].
    all: split; [reflexivity|]; split; [reflexivity|].
    + split; [discriminate|]. split; [reflexivity|]. intros H. contradiction.
    + split; [reflexivity|]. split; [discriminate|]. intros H. contradiction.
Qed.

End P.

Lemma response_status_and_body_witness :
  status (response (handler (host := Samples.utc) (driver := seeded)
                      (builtins := no_statics) eval_name epoch
                      (post "s1" Samples.two_statements))) = 200.
Proof.
  apply (proj2 (proj1 (proj2
           (response_status_and_body (host := Samples.utc) (driver := seeded)
              (builtins := no_statics) eval_name epoch
              (post "s1" Samples.two_statements))))).
  eexists. vm_compute. reflexivity.
Defined.


Lemma session_starts_with_the_search_path_witness :
  exists l,
    map query
      (match session (handler (host := Samples.utc) (driver := seeded)
                        (builtins := no_statics) eval_name epoch
                        (post "s1" Samples.two_statements)) with
       | Some w => issued w
       | None => []
       end)
    = ("SET search_path TO " ++ quoted "s1" ++ ", public") :: l
    /\ List.length l <= 2.
Proof.
  destruct (session (handler (host := Samples.utc) (driver := seeded)
                       (builtins := no_statics) eval_name epoch
                       (post "s1" Samples.two_statements)))
    as [w|] eqn:E; [|vm_compute in E; discriminate E].
  destruct (session_starts_with_the_search_path (host := Samples.utc)
              (driver := seeded) (builtins := no_statics) eval_name epoch
              (post "s1" Samples.two_statements) w E)
    as [l [El Hl]].
  exists (map query l). split.
  - rewrite El. reflexivity.
  - rewrite length_map. apply (Hl (mkParsed "user" "findMany" VUndefined));
      [vm_compute; reflexivity|discriminate].
Defined.

Lemma rejected_search_path_leaves_the_connection_open_witness :
  disconnected (handler (host := Samples.utc) (driver := locked)
                  (builtins := no_statics) eval_name epoch
                  (post "s1" Samples.two_statements)) = false.
Proof.
  rewrite (rejected_search_path_leaves_the_connection_open
             (host := Samples.utc) (driver := locked)
             (builtins := no_statics) eval_name epoch
             (post "s1" Samples.two_statements)
             (mkParsed "user" "findMany" VUndefined) tt tt
             (DatabaseError "permission denied")).
  - reflexivity.
  - reflexivity.
  - discriminate.
  - vm_compute. reflexivity.
  - cbn. tauto.
  - reflexivity.
  - reflexivity.
Defined.

Lemma names_outside_the_models_witness :
  response (handler (host := Samples.utc) (driver := seeded)
              (builtins := no_statics) eval_name epoch
              (post "s1" ("const a = await prisma.toString.findMany()"
                          ++ Sql.nl ++ "console.log(a)")))
  = mkResponse 500 (Failure TypeError).
Proof.
  refine (proj1 (proj2 (proj2 (proj2
            (names_outside_the_models (host := Samples.utc)
               (driver := seeded) (builtins := no_statics) eval_name epoch
               (post "s1" ("const a = await prisma.toString.findMany()"
                           ++ Sql.nl ++ "console.log(a)"))
               (mkParsed "toString" "findMany" VUndefined)
               (mkWorld (db := Samples.table_engine)
                  [Samples.alice; Samples.bob]
                  [mkQuery (search_path_statement "s1") []])
               _ _ _ _ _ _)))) _ _).
  - reflexivity.
  - discriminate.
  - vm_compute. reflexivity.
  - cbn. tauto.
  - vm_compute. reflexivity.
  - cbn. intros H. repeat destruct H as [H|H]; try discriminate H. exact H.
  - vm_compute. reflexivity.
  - discriminate.
Defined.

End ServerProps.

(* ================================================================== *)
(** ** Deleting without a filter *)

Module DeleteProps.
Import Js Schema Sql Client Notions JsFacts StrFacts SelectFacts ClientProps
       MethodProps.

Section P.
Context {host : Host} {db : Database}.

(** X27. [delete] on a payload whose [where] is missing or falsy looks up
    the first row of the table and, when there is one, sends
    [DELETE FROM "<table>"] with no [WHERE]: every row of the table is
    deleted, and the row looked up is returned. *)
Theorem delete_without_filter (m : string) (schema : ModelDescriptor)
    (args f : value) (w : world) (c1 : conn) (found : QueryResult)
    (r0 : row) (others : list row) :
  model_of m = Some schema ->
  get args "where" = Ok f ->
  truthy f = false ->
  let sel := mkQuery ("SELECT * FROM " ++ quoted (table schema) ++ " LIMIT 1")
                     [] in
  let del := mkQuery ("DELETE FROM " ++ quoted (table schema)) [] in
  run (connection w) (query sel) (values sel) = (c1, Ok found) ->
  rows found = r0 :: others ->
  delete m args w
  = (mkWorld (fst (run c1 (query del) (values del)))
             (issued w ++ [sel; del]),
     match snd (run c1 (query del) (values del)) with
     | Ok _ => Ok (VObj r0)
     | Throw e => Throw e
     end).
Proof.
  intros Hm Hw Hf sel del Hsel Hrows.
  destruct (where_clause_falsy schema f 1 Hf) as [Hc Hv].
  assert (Hs : select_where schema f = "")
    by (unfold select_where; now rewrite Hf).
  pose proof (findUnique_by_where m schema f w Hm) as Hfu. cbv zeta in Hfu.
  rewrite Hs, Hv in Hfu.
  change (mkQuery ("SELECT * FROM " ++ quoted (table schema) ++ ""
                   ++ " LIMIT 1") []) with sel in Hfu.
  rewrite Hsel in Hfu.
  unfold delete. rewrite mbind_eq, lift_eq, Hw, mbind_eq, Hfu.
  unfold first_or_null. rewrite Hrows. cbn [truthy negb].
  rewrite mbind_eq, lift_eq.
  rewrite (delete_by_where m schema args f Hm Hw), Hc, Hv, append_nil_r.
  fold del. rewrite mbind_eq, client_query_eq. cbn [connection issued].
  destruct (run c1 (query del) (values del)) as [c2 [r|e]];
    cbn [fst snd]; unfold ret;
    now rewrite <- app_assoc.
Qed.

End P.

Lemma delete_without_filter_witness :
  delete (host := Samples.utc) (db := Samples.table_engine) "user" (VObj [])
    (mkWorld (db := Samples.table_engine) [Samples.alice; Samples.bob] [])
  = (mkWorld (db := Samples.table_engine) []
       [mkQuery ("SELECT * FROM " ++ quoted "users" ++ " LIMIT 1") [];
        mkQuery ("DELETE FROM " ++ quoted "users") []],
     Ok (VObj Samples.alice)).
Proof.
  exact (delete_without_filter (host := Samples.utc)
           (db := Samples.table_engine) "user" _ (VObj []) VUndefined
           (mkWorld (db := Samples.table_engine)
              [Samples.alice; Samples.bob] [])
           [Samples.alice; Samples.bob]
           (mkResult [Samples.alice; Samples.bob] (Some 2))
           Samples.alice [Samples.bob]
           eq_refl eq_refl eq_refl eq_refl eq_refl).
Defined.

End DeleteProps.
